(** * mongoose-express-ts: the authentication and profile routes

    A shallow embedding of [src/routes/api/auth.ts] and
    [src/routes/api/profile.ts] over a model of the two mongoose
    collections they use (the [Profile] schema of [src/models/Profile.ts]
    and the [User] documents the handlers read).

    Collections are lists of documents in natural order: [findOne] returns
    the first document that matches.  A handler is a function from the store
    and the request to the response and the store it leaves behind; the
    identity that the auth middleware attaches to the request ([req.userId])
    is an explicit argument.  The libraries the handlers call into
    (express-validator's [isEmail], [bcrypt.compare], [jwt.sign] and
    mongoose's cast of a string to an ObjectId) are parameters of the
    development, gathered in the class [Platform].

    Left out of the documents: the version key [__v] that mongoose keeps,
    and the rendering of a date, which is an instant here.  The only errors
    the store raises are those the handlers can cause: a cast that fails, a
    required path that is missing, a duplicate key. *)

From Stdlib Require Import ZArith Lia Ascii.
From stdpp Require Import base option list strings.

Local Set Warnings "-register-all".
Local Open Scope string_scope.
Local Open Scope list_scope.
Local Open Scope Z_scope.

(** ** JSON values and HTTP responses *)

Inductive json :=
| JNull
| JBool (b : bool)
| JNum (n : Z)
| JStr (s : string)
| JArr (items : list json)
| JObj (fields : list (string * json)).

Inductive Body :=
| Json (j : json)     (* res.json(j) *)
| Text (s : string).  (* res.send(s) *)

Record Response := mkResponse { status : Z; body : Body }.

Module HttpStatusCodes.
Definition OK : Z := 200.
Definition BAD_REQUEST : Z := 400.
Definition INTERNAL_SERVER_ERROR : Z := 500.
End HttpStatusCodes.

Definition res_json (j : json) : Response :=
  mkResponse HttpStatusCodes.OK (Json j).
Definition res_status_json (code : Z) (j : json) : Response :=
  mkResponse code (Json j).
Definition res_status_send (code : Z) (s : string) : Response :=
  mkResponse code (Text s).

(** [{ errors: [ { msg } ] }] *)
Definition errors_msg (msg : string) : json :=
  JObj [("errors", JArr [JObj [("msg", JStr msg)]])].

(** [{ msg }] *)
Definition msg_obj (msg : string) : json := JObj [("msg", JStr msg)].

Definition server_error : Response :=
  res_status_send HttpStatusCodes.INTERNAL_SERVER_ERROR "Server Error".

(** Does an object key occur anywhere in a JSON value? *)
Fixpoint json_has_key (k : string) (j : json) : bool :=
  match j with
  | JNull | JBool _ | JNum _ | JStr _ => false
  | JArr items => existsb (json_has_key k) items
  | JObj fields =>
      existsb (fun kv => bool_decide (kv.1 = k) || json_has_key k kv.2) fields
  end.

Definition body_has_key (k : string) (b : Body) : bool :=
  match b with Json j => json_has_key k j | Text _ => false end.

(** ** Documents *)

(** An ObjectId, as the 24-digit hexadecimal string that [doc.id] and the
    JSON rendering of a document show. *)
Definition ObjectId := string.

(** Modelled from the spec: [src/models/User.ts] is not among the sources.
    A User has an id, a unique email and a password hash (spec, section 3);
    [avatar] is the other field the handlers select when they populate a
    profile's [user]. *)
Record User := mkUser {
  u_id : ObjectId;
  email : string;
  password : string;
  avatar : option string
}.

(** [profileSchema] of [src/models/Profile.ts]. *)
Record Profile := mkProfile {
  p_id : ObjectId;
  user : ObjectId;        (* ref: "User" *)
  firstName : string;     (* required *)
  lastName : string;      (* required *)
  username : string;      (* required, unique *)
  date : Z                (* default: Date.now *)
}.

(** [types/Payload]: what a token carries. *)
Record Payload := mkPayload { userId : string }.

Record Store := mkStore {
  users : list User;
  profiles : list Profile
}.

(** A document as the list of its paths, in schema order. *)
Definition user_doc (u : User) : list (string * json) :=
  [("_id", JStr (u_id u)); ("email", JStr (email u));
   ("password", JStr (password u))]
  ++ match avatar u with Some a => [("avatar", JStr a)] | None => [] end.

(** [.select("-password")]: every path but the excluded ones. *)
Definition select_exclude (ks : list string) (d : list (string * json))
  : list (string * json) :=
  filter (fun kv => kv.1 ∉ ks) d.

(** An inclusive projection: the listed paths, and [_id], which mongoose
    keeps unless it is excluded by name. *)
Definition select_include (ks : list string) (d : list (string * json))
  : list (string * json) :=
  filter (fun kv => kv.1 = "_id" ∨ kv.1 ∈ ks) d.

(** A profile with the given rendering of its [user] path. *)
Definition profile_doc (p : Profile) (u : json) : json :=
  JObj [("_id", JStr (p_id p)); ("user", u);
        ("firstName", JStr (firstName p)); ("lastName", JStr (lastName p));
        ("username", JStr (username p)); ("date", JNum (date p))].

Definition profile_json (p : Profile) : json :=
  profile_doc p (JStr (user p)).

(** ** Errors thrown by mongoose, and the monad that threads them *)

Inductive MongooseError :=
| CastError (kind : string)   (* err.kind *)
| ValidationError             (* a required path is missing *)
| MongoError (code : Z)       (* 11000: duplicate key *)
| OtherError (msg : string).

Definition err_kind (e : MongooseError) : option string :=
  match e with CastError k => Some k | _ => None end.

Definition E11000 : MongooseError := MongoError 11000.

Inductive Result (A : Type) :=
| Ok (a : A)
| Err (e : MongooseError).
Arguments Ok {A} a.
Arguments Err {A} e.

#[global] Instance result_ret : MRet Result := fun A a => Ok a.
#[global] Instance result_bind : MBind Result := fun A B f m =>
  match m with Ok a => f a | Err e => Err e end.

(** A computation over the store that may throw.  A throw keeps the store
    as the writes before it left it. *)
Definition M (A : Type) : Type := Store -> Result A * Store.

#[global] Instance M_ret : MRet M := fun A a s => (Ok a, s).
#[global] Instance M_bind : MBind M := fun A B f m s =>
  match m s with
  | (Ok a, s') => f a s'
  | (Err e, s') => (Err e, s')
  end.

Definition throw {A} (e : MongooseError) : M A := fun s => (Err e, s).

(** A query: reads the store. *)
Definition query {A} (q : Store -> Result A) : M A := fun s => (q s, s).

(** A handler answers the request and leaves a store. *)
Definition Handler : Type := Store -> Response * Store.

(** [try { body } catch (err) { res = h err }] *)
Definition try_catch (body : M Response) (h : MongooseError -> Response)
  : Handler :=
  fun s =>
    match body s with
    | (Ok r, s') => (r, s')
    | (Err e, s') => (h e, s')
    end.

(** A handler that answers without touching the store. *)
Definition answer (r : Response) : Handler := fun s => (r, s).

(** ** Generic collection operations *)

Section Collection.
Context {A : Type} (P : A -> Prop) `{!forall x, Decision (P x)}.

Definition findOne (docs : list A) : option A :=
  snd <$> list_find P docs.

(** Removes the first match and returns it; nothing happens when there is
    none. *)
Definition findOneAndRemove (docs : list A) : option A * list A :=
  match list_find P docs with
  | Some (i, d) => (Some d, delete i docs)
  | None => (None, docs)
  end.

(** Replaces the first match [d] by [f d] and returns the new document,
    unless [blocked] (a unique index) refuses it given the other documents. *)
Definition findOneAndUpdate (f : A -> A) (blocked : list A -> A -> bool)
    (docs : list A) : Result (option A * list A) :=
  match list_find P docs with
  | Some (i, d) =>
      if blocked (delete i docs) (f d) then Err E11000
      else Ok (Some (f d), <[i := f d]> docs)
  | None => Ok (None, docs)
  end.
End Collection.

(** ** Request bodies and express-validator *)

(** The body of a login.  The password is whatever JSON value the request
    holds under that key, if any: the handler asks of it only that it
    exists. *)
Record LoginBody := mkLoginBody {
  lb_email : option string;
  lb_password : option json
}.

Record ProfileBody := mkProfileBody {
  pb_firstName : option string;
  pb_lastName : option string;
  pb_username : option string
}.

(** One entry of [errors.array()]. *)
Definition validation_error (param msg : string) (value : option string)
  : json :=
  JObj ([("location", JStr "body"); ("param", JStr param)]
        ++ match value with Some v => [("value", JStr v)] | None => [] end
        ++ [("msg", JStr msg)]).

(** [check(param, msg).exists()] *)
Definition check_exists (param msg : string) (value : option json)
  : list json :=
  match value with
  | Some _ => []
  | None => [validation_error param msg None]
  end.

(** [check(param, msg).not().isEmpty()]: an absent field reads as the empty
    string. *)
Definition check_not_isEmpty (param msg : string) (value : option string)
  : list json :=
  match value with
  | Some (String _ _) => []
  | _ => [validation_error param msg value]
  end.

(** What the [new Profile(...)] of a request draws from its environment. *)
Record Env := mkEnv {
  now : Z;               (* Date.now() *)
  fresh_id : ObjectId    (* the _id generated for a new document *)
}.

(** The object [profileFields] that the upsert builds. *)
Record ProfileFields := mkProfileFields {
  pf_user : string;
  pf_firstName : string;
  pf_lastName : string;
  pf_username : string
}.

(** The requests, after the auth middleware: a private route carries the
    [userId] of the verified token. *)
Inductive Request :=
| GET_auth (userId : string)
| POST_auth (b : LoginBody)
| GET_profile_me (userId : string)
| POST_profile (userId : string) (b : ProfileBody)
| GET_profile
| GET_profile_user (userId : string)
| DELETE_profile (userId : string).

(** ** The libraries and the configuration *)

(** What the routes take from outside the repository. *)
Class Platform := {
  (** validator.js [isEmail] *)
  isEmail : string -> bool;
  (** [bcrypt.compare(plaintext, hash)] *)
  bcrypt_compare : string -> string -> bool;
  (** mongoose's cast of a string to an ObjectId; [None] is a CastError *)
  castObjectId : string -> option ObjectId;
  (** [jwt.sign(payload, secret, { expiresIn })] at a given time *)
  jwt_sign : Payload -> string -> Z -> Z -> string;
  (** [jwt.verify(token, secret)] at a given time; [None] when it throws *)
  jwt_verify : string -> string -> Z -> option Payload;
  (** [config.get("jwtSecret")] *)
  jwtSecret : string;
  (** [config.get("jwtExpiration")] *)
  jwtExpiration : Z
}.

(** The contract of jsonwebtoken the login relies on: a token verifies
    under the key that signed it until it expires, and what it yields,
    whenever it verifies, is the payload that was signed. *)
Definition jwt_roundtrip `{!Platform} : Prop :=
  forall (p : Payload) (k : string) (ttl t t' : Z),
    t' < t + ttl -> jwt_verify (jwt_sign p k ttl t) k t' = Some p.

Definition jwt_verify_sound `{!Platform} : Prop :=
  forall (p p' : Payload) (k : string) (ttl t t' : Z),
    jwt_verify (jwt_sign p k ttl t) k t' = Some p' -> p' = p.

(** ** The routes *)

Section Api.
Context `{!Platform}.

Definition cast (v : string) : Result ObjectId :=
  match castObjectId v with
  | Some o => Ok o
  | None => Err (CastError "ObjectId")
  end.

(** *** The User model *)

(** [User.findOne({ email })]; a filter on [undefined] matches no
    document that has the path. *)
Definition User_findOne_email (e : option string) : M (option User) :=
  query (fun s => Ok (findOne (fun u => Some (email u) = e) (users s))).

(** [User.findOne({ _id })] *)
Definition User_findOne_id (id : string) : M (option User) :=
  query (fun s => o ← cast id; Ok (findOne (fun u => u_id u = o) (users s))).

(** [User.findById(id)] *)
Definition User_findById (id : string) : M (option User) :=
  User_findOne_id id.

(** [User.findOneAndRemove({ _id })] *)
Definition User_findOneAndRemove (id : string) : M (option User) :=
  fun s =>
    match cast id with
    | Err e => (Err e, s)
    | Ok o =>
        let '(u, us) := findOneAndRemove (fun u => u_id u = o) (users s) in
        (Ok u, mkStore us (profiles s))
    end.

(** *** The Profile model *)

(** [Profile.find()] *)
Definition Profile_find : M (list Profile) :=
  query (fun s => Ok (profiles s)).

(** [Profile.findOne({ user })] *)
Definition Profile_findOne (uid : string) : M (option Profile) :=
  query (fun s => o ← cast uid; Ok (findOne (fun p => user p = o) (profiles s))).

(** [Profile.findOneAndRemove({ user })] *)
Definition Profile_findOneAndRemove (uid : string) : M (option Profile) :=
  fun s =>
    match cast uid with
    | Err e => (Err e, s)
    | Ok o =>
        let '(p, ps) := findOneAndRemove (fun p => user p = o) (profiles s) in
        (Ok p, mkStore (users s) ps)
    end.

(** The unique index on [username]. *)
Definition username_taken (others : list Profile) (p : Profile) : bool :=
  bool_decide (username p ∈ username <$> others).

(** The unique index on [_id]. *)
Definition id_taken (others : list Profile) (p : Profile) : bool :=
  bool_decide (p_id p ∈ p_id <$> others).

(** [{ $set: profileFields }] on a document. *)
Definition set_fields (o : ObjectId) (f : ProfileFields) (p : Profile)
  : Profile :=
  {| p_id := p_id p; user := o;
     firstName := pf_firstName f; lastName := pf_lastName f;
     username := pf_username f; date := date p |}.

(** [Profile.findOneAndUpdate({ user }, { $set: profileFields },
    { new: true })] *)
Definition Profile_findOneAndUpdate (uid : string) (f : ProfileFields)
  : M (option Profile) :=
  fun s =>
    match (o ← cast uid; o' ← cast (pf_user f);
           findOneAndUpdate (fun p => user p = o) (set_fields o' f)
             username_taken (profiles s)) with
    | Err e => (Err e, s)
    | Ok (p, ps) => (Ok p, mkStore (users s) ps)
    end.

(** [new Profile(profileFields)].  (A [user] that does not cast is reported
    by mongoose when the document is saved; here it is reported at once: the
    handler does nothing in between.) *)
Definition new_Profile (e : Env) (f : ProfileFields) : M Profile :=
  query (fun _ =>
    o ← cast (pf_user f);
    Ok {| p_id := fresh_id e; user := o;
          firstName := pf_firstName f; lastName := pf_lastName f;
          username := pf_username f; date := now e |}).

(** The [required: true] paths of the schema. *)
Definition schema_valid (p : Profile) : bool :=
  negb (bool_decide (firstName p = "")) &&
  negb (bool_decide (lastName p = "")) &&
  negb (bool_decide (username p = "")).

(** [profile.save()] of a new document. *)
Definition Profile_save (p : Profile) : M unit :=
  fun s =>
    if negb (schema_valid p) then (Err ValidationError, s)
    else if id_taken (profiles s) p || username_taken (profiles s) p
    then (Err E11000, s)
    else (Ok tt, mkStore (users s) (profiles s ++ [p])).

(** [.populate("user", ["avatar", "email"])] and the JSON of the result:
    the [user] path becomes the selected part of the referenced User, or
    null when there is none. *)
Definition populate_user (us : list User) (p : Profile) : json :=
  profile_doc p
    match findOne (fun u => u_id u = user p) us with
    | Some u => JObj (select_include ["avatar"; "email"] (user_doc u))
    | None => JNull
    end.

Definition populate (p : Profile) : M json :=
  query (fun s => Ok (populate_user (users s) p)).

Definition populate_all (ps : list Profile) : M (list json) :=
  query (fun s => Ok (populate_user (users s) <$> ps)).

(** *** [routes/api/auth.ts] *)

(** [check("email", msg).isEmail()] *)
Definition check_isEmail (param msg : string) (value : option string)
  : list json :=
  match value with
  | Some v => if isEmail v then [] else [validation_error param msg value]
  | None => [validation_error param msg value]
  end.

(** JavaScript's [typeof] of a JSON value. *)
Definition js_typeof (v : option json) : string :=
  match v with
  | None => "undefined"
  | Some (JBool _) => "boolean"
  | Some (JNum _) => "number"
  | Some (JStr _) => "string"
  | Some JNull | Some (JArr _) | Some (JObj _) => "object"
  end.

(** [bcrypt.compare(password, hash)]; it throws on a password that is not a
    string. *)
Definition bcrypt_compare_req (pw : option json) (hash : string) : M bool :=
  match pw with
  | Some (JStr pw) => mret (bcrypt_compare pw hash)
  | _ => throw (OtherError ("Illegal arguments: " +:+ js_typeof pw +:+ ", string"))
  end.

Definition opt_json (f : option json) : json := default JNull f.

(** [GET api/auth]: the authenticated user. *)
Definition get_auth (uid : string) : Handler :=
  try_catch
    (user ← User_findById uid;
     mret (res_json
             (opt_json ((fun u => JObj (select_exclude ["password"] (user_doc u)))
                          <$> user))))
    (fun _ => server_error).

Definition invalid_credentials : Response :=
  res_status_json HttpStatusCodes.BAD_REQUEST (errors_msg "Invalid Credentials").

(** [POST api/auth]: login. *)
Definition post_auth (e : Env) (b : LoginBody) : Handler :=
  let errors :=
    check_isEmail "email" "Please include a valid email" (lb_email b)
    ++ check_exists "password" "Password is required" (lb_password b) in
  if negb (bool_decide (errors = [])) then
    answer (res_status_json HttpStatusCodes.BAD_REQUEST
              (JObj [("errors", JArr errors)]))
  else
    try_catch
      (user ← User_findOne_email (lb_email b);
       match user with
       | None => mret invalid_credentials
       | Some user =>
           isMatch ← bcrypt_compare_req (lb_password b) (password user);
           if negb isMatch then mret invalid_credentials
           else
             let payload := {| userId := u_id user |} in
             mret (res_json
                     (JObj [("token",
                             JStr (jwt_sign payload jwtSecret jwtExpiration
                                     (now e)))]))
       end)
      (fun _ => server_error).

(** *** [routes/api/profile.ts] *)

Definition no_profile : Response :=
  res_status_json HttpStatusCodes.BAD_REQUEST
    (errors_msg "There is no profile for this user").

Definition user_not_registered : Response :=
  res_status_json HttpStatusCodes.BAD_REQUEST (errors_msg "User not registered").

Definition profile_not_found : Response :=
  res_status_json HttpStatusCodes.BAD_REQUEST (msg_obj "Profile not found").

Definition user_removed : Response := res_json (msg_obj "User removed").

(** [GET api/profile/me]: the profile of the authenticated user. *)
Definition get_profile_me (uid : string) : Handler :=
  try_catch
    (profile ← Profile_findOne uid;
     match profile with
     | None => mret no_profile
     | Some profile =>
         populated ← populate profile;
         mret (res_json populated)
     end)
    (fun _ => server_error).

(** [POST api/profile]: create or update the profile of the authenticated
    user. *)
Definition post_profile (e : Env) (uid : string) (b : ProfileBody) : Handler :=
  let errors :=
    check_not_isEmpty "firstName" "First Name is required" (pb_firstName b)
    ++ check_not_isEmpty "lastName" "Last Name is required" (pb_lastName b)
    ++ check_not_isEmpty "username" "Username is required" (pb_username b) in
  if negb (bool_decide (errors = [])) then
    answer (res_status_json HttpStatusCodes.BAD_REQUEST
              (JObj [("errors", JArr errors)]))
  else
    (* the three fields are present once the checks have passed *)
    let profileFields :=
      {| pf_user := uid;
         pf_firstName := default "" (pb_firstName b);
         pf_lastName := default "" (pb_lastName b);
         pf_username := default "" (pb_username b) |} in
    try_catch
      (user ← User_findOne_id uid;
       match user with
       | None => mret user_not_registered
       | Some _ =>
           profile ← Profile_findOne uid;
           match profile with
           | Some _ =>
               (* Update *)
               profile ← Profile_findOneAndUpdate uid profileFields;
               mret (res_json (opt_json (profile_json <$> profile)))
           | None =>
               (* Create *)
               profile ← new_Profile e profileFields;
               _ ← Profile_save profile;
               mret (res_json (profile_json profile))
           end
       end)
      (fun _ => server_error).

(** [GET api/profile]: all profiles. *)
Definition get_profiles : Handler :=
  try_catch
    (profiles ← Profile_find;
     populated ← populate_all profiles;
     mret (res_json (JArr populated)))
    (fun _ => server_error).

(** [GET api/profile/user/:userId]: the profile of a user. *)
Definition get_profile_user (param : string) : Handler :=
  try_catch
    (profile ← Profile_findOne param;
     match profile with
     | None => mret profile_not_found
     | Some profile =>
         populated ← populate profile;
         mret (res_json populated)
     end)
    (fun err =>
       if bool_decide (err_kind err = Some "ObjectId") then profile_not_found
       else server_error).

(** [DELETE api/profile]: remove the profile and the user. *)
Definition delete_profile (uid : string) : Handler :=
  try_catch
    (_ ← Profile_findOneAndRemove uid;
     _ ← User_findOneAndRemove uid;
     mret user_removed)
    (fun _ => server_error).

(** The router. *)
Definition handle (e : Env) (r : Request) : Handler :=
  match r with
  | GET_auth uid => get_auth uid
  | POST_auth b => post_auth e b
  | GET_profile_me uid => get_profile_me uid
  | POST_profile uid b => post_profile e uid b
  | GET_profile => get_profiles
  | GET_profile_user param => get_profile_user param
  | DELETE_profile uid => delete_profile uid
  end.

End Api.

(** ** Invariants of the store *)

(** The unique indexes: [_id] on both collections and [username] on
    profiles ([src/models/Profile.ts]); one profile per user, which the
    upsert maintains by creating a profile only for a user that has none;
    and [email] on users.
    Modelled from the spec: the index on [email] is declared in
    [models/User.ts], which is not among the sources (spec, section 3:
    exactly one User per email). *)
Record store_wf (s : Store) : Prop := {
  wf_user_ids : NoDup (u_id <$> users s);
  wf_emails : NoDup (email <$> users s);
  wf_profile_ids : NoDup (p_id <$> profiles s);
  wf_usernames : NoDup (username <$> profiles s);
  wf_one_profile : NoDup (user <$> profiles s)
}.

(** Two stores that differ at most in the password hashes they hold. *)
Definition forget_password (u : User) : User :=
  {| u_id := u_id u; email := email u; password := ""; avatar := avatar u |}.

Definition same_but_passwords (s1 s2 : Store) : Prop :=
  forget_password <$> users s1 = forget_password <$> users s2
  /\ profiles s1 = profiles s2.

(** The store with every password hash blanked. *)
Definition blank (s : Store) : Store :=
  {| users := forget_password <$> users s; profiles := profiles s |}.

(** The keys of an object. *)
Definition keys (d : list (string * json)) : list string := fst <$> d.

(** A body that has the three fields, none of them empty. *)
Definition valid_body (b : ProfileBody) (f l un : string) : Prop :=
  b = {| pb_firstName := Some f; pb_lastName := Some l; pb_username := Some un |}
  /\ f <> "" /\ l <> "" /\ un <> "".

(** A failure that tells the caller of a conflict: not a success, and not
    the catch-all "Server Error". *)
Definition reports_conflict (r : Response) : Prop :=
  status r <> 200 /\ r <> server_error.

(** No profile without the user it refers to. *)
Definition no_orphans (s : Store) : Prop :=
  forall p, p ∈ profiles s -> exists u, u ∈ users s /\ u_id u = user p.


(** Does a request write?  Only the upsert and the delete do. *)
Definition is_write (r : Request) : bool :=
  match r with
  | POST_profile _ _ | DELETE_profile _ => true
  | _ => false
  end.

(** A field that [isEmpty] takes for empty: absent, or the empty string. *)
Definition is_blank (v : option string) : bool :=
  match v with Some (String _ _) => false | _ => true end.

(** The fields the upsert checks, in the order of its checks, each with
    the message of its check and its value in the body. *)
Definition profile_checks (b : ProfileBody)
  : list (string * string * option string) :=
  [("firstName", "First Name is required", pb_firstName b);
   ("lastName", "Last Name is required", pb_lastName b);
   ("username", "Username is required", pb_username b)].

(** ** A small platform to run the routes on *)

Module Toy.

Definition is_hex (c : Ascii.ascii) : bool :=
  bool_decide (c ∈ String.list_ascii_of_string "0123456789abcdef").

Definition cast_oid (v : string) : option ObjectId :=
  if bool_decide (String.length v = 24%nat)
     && forallb is_hex (String.list_ascii_of_string v)
  then Some v else None.

Definition is_email (v : string) : bool :=
  bool_decide ("@"%char ∈ String.list_ascii_of_string v).

Definition hash (pw : string) : string := "$2a$10$" +:+ pw.

Definition compare (pw h : string) : bool :=
  bool_decide (h = hash pw).

(** Tokens: the key, the expiry in unary, a dot, the user id. *)
Fixpoint ticks (n : nat) (rest : string) : string :=
  match n with
  | O => rest
  | S n => String "'" (ticks n rest)
  end.

Fixpoint read_ticks (s : string) : option (nat * string) :=
  match s with
  | String c s' =>
      if bool_decide (c = "'"%char) then prod_map S id <$> read_ticks s'
      else if bool_decide (c = "."%char) then Some (O, s')
      else None
  | EmptyString => None
  end.

Fixpoint strip_prefix (k s : string) : option string :=
  match k, s with
  | EmptyString, _ => Some s
  | String a k', String b s' =>
      if bool_decide (a = b) then strip_prefix k' s' else None
  | String _ _, EmptyString => None
  end.

Definition sign (p : Payload) (k : string) (ttl t : Z) : string :=
  k +:+ ticks (Z.to_nat (t + ttl)) (String "." (userId p)).

Definition verify (tok k : string) (t : Z) : option Payload :=
  match strip_prefix k tok with
  | Some rest =>
      match read_ticks rest with
      | Some (n, uid) =>
          if bool_decide (t < Z.of_nat n) then Some {| userId := uid |}
          else None
      | None => None
      end
  | None => None
  end.

Definition platform : Platform := {|
  isEmail := is_email;
  bcrypt_compare := compare;
  castObjectId := cast_oid;
  jwt_sign := sign;
  jwt_verify := verify;
  jwtSecret := "s3cret";
  jwtExpiration := 5
|}.

Definition alice_id : ObjectId := "5d0000000000000000000a11".
Definition bob_id : ObjectId := "5d0000000000000000000b0b".
Definition carol_id : ObjectId := "5d0000000000000000000ca7".

Definition alice : User :=
  {| u_id := alice_id; email := "alice@x.com"; password := hash "secret";
     avatar := Some "//gravatar.com/avatar/a11" |}.
Definition bob : User :=
  {| u_id := bob_id; email := "bob@x.com"; password := hash "hunter2";
     avatar := None |}.

Definition alice_profile : Profile :=
  {| p_id := "5e00000000000000000000a1"; user := alice_id;
     firstName := "Alice"; lastName := "Liddell"; username := "alice";
     date := 7 |}.

(** Alice has a profile, Bob has none, Carol is not registered. *)
Definition store0 : Store :=
  {| users := [alice; bob]; profiles := [alice_profile] |}.

Definition env0 : Env := {| now := 8; fresh_id := "5e00000000000000000000b2" |}.
Definition env1 : Env := {| now := 9; fresh_id := "5e00000000000000000000c3" |}.

Definition body (f l u : string) : ProfileBody :=
  {| pb_firstName := Some f; pb_lastName := Some l; pb_username := Some u |}.

Definition login (e p : string) : LoginBody :=
  {| lb_email := Some e; lb_password := Some (JStr p) |}.

End Toy.


(** * Properties *)

(** ** Lists of documents *)

Lemma filter_all {A} (Q : A -> Prop) `{!forall x, Decision (Q x)} (l : list A) :
  (forall x, x ∈ l -> Q x) -> filter Q l = l.
Proof.
  induction l as [|x l IH]; intros Hall; [done|].
  rewrite filter_cons_True by (apply Hall; left).
  f_equal. apply IH. intros y Hy. apply Hall. by right.
Qed.

Lemma list_delete_insert {A} (l : list A) (i : nat) (x : A) :
  delete i (<[i := x]> l) = delete i l.
Proof.
  revert i. induction l as [|y l IH]; intros [|i]; simpl; [done..|].
  f_equal. apply IH.
Qed.

Lemma list_delete_snoc {A} (l : list A) (x : A) :
  delete (length l) (l ++ [x]) = l.
Proof. induction l as [|y l IH]; simpl; [done|]. by rewrite IH. Qed.

Lemma list_elem_of_delete {A} (l : list A) (i : nat) (x y : A) :
  l !! i = Some y -> x ∈ l -> x <> y -> x ∈ delete i l.
Proof.
  intros Hi Hx Hne. rewrite (delete_Permutation l i y Hi) in Hx.
  apply elem_of_cons in Hx as [?|?]; done.
Qed.

Lemma NoDup_delete {A} (l : list A) (i : nat) : NoDup l -> NoDup (delete i l).
Proof. intros Hnd. apply (sublist_NoDup _ l Hnd), sublist_delete. Qed.

Lemma NoDup_insert_fresh {A} (l : list A) (i : nat) (y : A) :
  NoDup l -> y ∉ delete i l -> NoDup (<[i := y]> l).
Proof.
  intros Hnd Hy. destruct (decide (i < length l)%nat) as [Hi|Hi].
  - rewrite (delete_Permutation (<[i := y]> l) i y)
      by (by apply list_lookup_insert_eq).
    rewrite list_delete_insert. apply NoDup_cons. split; [done|].
    by apply NoDup_delete.
  - rewrite list_insert_ge by lia. done.
Qed.

Lemma NoDup_snoc_fresh {A} (l : list A) (y : A) :
  NoDup l -> y ∉ l -> NoDup (l ++ [y]).
Proof.
  intros Hnd Hy. apply NoDup_app. split_and!; [done| |apply NoDup_singleton].
  intros x Hx ->%list_elem_of_singleton. done.
Qed.

Section CollectionFacts.
Context {A K : Type} `{!EqDecision K} (key : A -> K).
Context (P : A -> Prop) `{!forall x, Decision (P x)}.

Lemma findOne_None (docs : list A) :
  findOne P docs = None <-> forall d, d ∈ docs -> ~ P d.
Proof.
  unfold findOne. rewrite fmap_None, list_find_None, Forall_forall. done.
Qed.

Lemma findOne_Some_inv (docs : list A) (d : A) :
  findOne P docs = Some d -> d ∈ docs /\ P d.
Proof.
  unfold findOne. intros ([i d'] & Hfind & ->)%fmap_Some.
  apply list_find_Some in Hfind as (Hi & HP & _).
  split; [by eapply list_elem_of_lookup_2 | done].
Qed.

(** Under a unique index on [key], a filter on the key finds the one
    document that has it. *)
Lemma list_find_unique (k : K) (docs : list A) (d : A) :
  (forall x, P x <-> key x = k) ->
  NoDup (key <$> docs) -> d ∈ docs -> key d = k ->
  exists i, list_find P docs = Some (i, d).
Proof.
  intros HP Hnd Hd Hk.
  destruct (list_find_elem_of P docs d Hd) as [[i d'] Hfind]; [by apply HP|].
  exists i. rewrite Hfind. do 2 f_equal.
  apply list_find_Some in Hfind as (Hi & HPd' & _).
  apply list_elem_of_lookup in Hd as [j Hj].
  assert (i = j) as ->; [|congruence].
  eapply (NoDup_lookup (key <$> docs)); [done|..].
  - rewrite list_lookup_fmap, Hi. done.
  - rewrite list_lookup_fmap, Hj. simpl. f_equal.
    rewrite Hk. symmetry. by apply HP.
Qed.

Lemma findOne_unique (k : K) (docs : list A) (d : A) :
  (forall x, P x <-> key x = k) ->
  NoDup (key <$> docs) -> d ∈ docs -> key d = k ->
  findOne P docs = Some d.
Proof.
  intros HP Hnd Hd Hk. unfold findOne.
  destruct (list_find_unique k docs d HP Hnd Hd Hk) as [i ->]. done.
Qed.

(** Under a unique index, removing the first match removes every match. *)
Lemma findOneAndRemove_filter (k : K) (docs : list A) :
  (forall x, P x <-> key x = k) ->
  NoDup (key <$> docs) ->
  (findOneAndRemove P docs).2 = filter (fun x => ~ P x) docs.
Proof.
  intros HP. unfold findOneAndRemove.
  induction docs as [|x docs IH]; intros Hnd; [done|].
  rewrite fmap_cons in Hnd.
  apply NoDup_cons in Hnd as [Hx Hnd]. specialize (IH Hnd).
  cbn [list_find]. destruct (decide (P x)) as [Hpx|Hpx]; cbn [snd].
  - rewrite filter_cons_False by tauto.
    symmetry. apply filter_all. intros y Hy Hpy.
    apply Hx. apply list_elem_of_fmap. exists y. split; [|done].
    apply HP in Hpx, Hpy. congruence.
  - rewrite filter_cons_True by done.
    destruct (list_find P docs) as [[i d]|]; simpl in *; by rewrite <- IH.
Qed.

Lemma findOneAndRemove_idem (docs : list A) :
  (forall d, d ∈ docs -> ~ P d) -> findOneAndRemove P docs = (None, docs).
Proof.
  intros Hno. unfold findOneAndRemove.
  destruct (list_find P docs) as [[i d]|] eqn:Hfind; [|done].
  apply list_find_Some in Hfind as (Hi & HPd & _).
  destruct (Hno d); [by eapply list_elem_of_lookup_2 | done].
Qed.

End CollectionFacts.

(** ** The routes *)

Section Properties.
Context `{!Platform}.

Lemma cast_Some (v : string) (o : ObjectId) :
  castObjectId v = Some o -> cast v = Ok o.
Proof. unfold cast. by intros ->. Qed.

Lemma cast_None (v : string) :
  castObjectId v = None -> cast v = Err (CastError "ObjectId").
Proof. unfold cast. by intros ->. Qed.

(** *** Login *)

(** What the login answers once the request has passed its checks: the
    password is there, of whatever type. *)
Lemma post_auth_eq (e : Env) (s : Store) (em : string) (pw : json) :
  isEmail em = true ->
  post_auth e {| lb_email := Some em; lb_password := Some pw |} s =
  ( match findOne (fun u => Some (email u) = Some em) (users s) with
    | None => invalid_credentials
    | Some u =>
        match pw with
        | JStr pw =>
            if bcrypt_compare pw (password u)
            then res_json (JObj [("token",
                   JStr (jwt_sign {| userId := u_id u |} jwtSecret
                           jwtExpiration (now e)))])
            else invalid_credentials
        | _ => server_error
        end
    end, s ).
Proof.
  intros Hem. unfold post_auth, check_isEmail. simpl. rewrite Hem. simpl.
  unfold try_catch, User_findOne_email, query, mbind, M_bind. simpl.
  destruct (findOne _ (users s)) as [u|]; simpl; [|done].
  unfold mret, M_ret. destruct pw as [|?|?|pw|?|?]; try done.
  simpl. by destruct (bcrypt_compare pw (password u)).
Qed.

(** The same, for a password that is a string. *)
Lemma post_auth_checked (e : Env) (s : Store) (em pw : string) :
  isEmail em = true ->
  post_auth e {| lb_email := Some em; lb_password := Some (JStr pw) |} s =
  ( match findOne (fun u => Some (email u) = Some em) (users s) with
    | None => invalid_credentials
    | Some u =>
        if bcrypt_compare pw (password u)
        then res_json (JObj [("token",
               JStr (jwt_sign {| userId := u_id u |} jwtSecret jwtExpiration
                       (now e)))])
        else invalid_credentials
    end, s ).
Proof. intros Hem. by rewrite post_auth_eq. Qed.

(** A password that is present but no string: the comparison throws once a
    user has been found for the email, and only then. *)
Lemma post_auth_not_a_string (e : Env) (s : Store) (em : string) (pw : json) :
  isEmail em = true ->
  (forall p, pw <> JStr p) ->
  post_auth e {| lb_email := Some em; lb_password := Some pw |} s =
  ( match findOne (fun u => Some (email u) = Some em) (users s) with
    | None => invalid_credentials
    | Some _ => server_error
    end, s ).
Proof.
  intros Hem Hpw. rewrite post_auth_eq by done.
  destruct (findOne _ (users s)) as [u|]; [|done].
  destruct pw as [|?|?|p|?|?]; try done. by destruct (Hpw p).
Qed.

(** C1: for a stored user, in a store where emails are unique, the login
    with the user's email and a password that bcrypt accepts against the
    stored hash answers 200 with a token; that token, verified with the
    configured secret at any time before it expires, yields the claim whose
    [userId] is the user's id, and at no time does it yield a claim with
    another [userId]. *)
Theorem login_token_identifies_user
    (e : Env) (s : Store) (u : User) (pw : string) :
  jwt_roundtrip ->
  jwt_verify_sound ->
  NoDup (email <$> users s) ->
  u ∈ users s ->
  isEmail (email u) = true ->
  bcrypt_compare pw (password u) = true ->
  exists token : string,
    post_auth e {| lb_email := Some (email u); lb_password := Some (JStr pw) |} s
    = (mkResponse 200 (Json (JObj [("token", JStr token)])), s)
    /\ (forall t' : Z,
         t' < now e + jwtExpiration ->
         jwt_verify token jwtSecret t' = Some {| userId := u_id u |})
    /\ (forall (t' : Z) (claim : Payload),
         jwt_verify token jwtSecret t' = Some claim -> userId claim = u_id u).
Proof.
  intros Hjwt Hsound Hnd Hu Hem Hpw.
  rewrite post_auth_checked by done.
  rewrite (findOne_unique email _ (email u) (users s) u);
    [|intros ?; split; congruence|done..].
  rewrite Hpw. eexists. split_and!; [reflexivity|..].
  - intros t' Ht. by apply Hjwt.
  - intros t' claim Hclaim. by rewrite (Hsound _ _ _ _ _ _ Hclaim).
Qed.

(** For passwords that are strings, the two failures of the login get the
    same answer: a login with an email that matches no stored user and a
    login with the email of a stored user and a password that bcrypt rejects
    are both answered 400 with [{errors: [{msg: "Invalid Credentials"}]}]. *)
Lemma login_failures_indistinguishable
    (e1 e2 : Env) (s1 s2 : Store) (em1 pw1 pw2 : string) (u : User) :
  isEmail em1 = true ->
  (forall v, v ∈ users s1 -> email v <> em1) ->
  isEmail (email u) = true ->
  NoDup (email <$> users s2) ->
  u ∈ users s2 ->
  bcrypt_compare pw2 (password u) = false ->
  let unknown_email :=
    post_auth e1 {| lb_email := Some em1; lb_password := Some (JStr pw1) |} s1 in
  let wrong_password :=
    post_auth e2
      {| lb_email := Some (email u); lb_password := Some (JStr pw2) |} s2 in
  unknown_email.1 = wrong_password.1
  /\ unknown_email.1 =
     mkResponse 400
       (Json (JObj [("errors", JArr [JObj [("msg", JStr "Invalid Credentials")]])])).
Proof.
  intros Hem1 Hno Hem2 Hnd Hu Hpw. simpl.
  rewrite !post_auth_checked by done.
  rewrite (findOne_unique email _ (email u) (users s2) u); [|intros ?; split; congruence|done..].
  rewrite Hpw.
  assert (findOne (fun v => Some (email v) = Some em1) (users s1) = None) as ->.
  { apply findOne_None. intros v Hv [=]. by eapply Hno. }
  done.
Qed.

(** *** Reads *)

Ltac unfold_handler :=
  unfold try_catch, User_findById, User_findOne_id, Profile_findOne,
    Profile_find, populate, populate_all, query, mbind, M_bind, mret, M_ret,
    result_bind, answer, cast; cbv beta iota zeta.

Ltac run_handler := unfold_handler; simpl.

Lemma get_auth_eq (uid : string) (s : Store) :
  get_auth uid s =
  ( match castObjectId uid with
    | None => server_error
    | Some o =>
        match findOne (fun u => u_id u = o) (users s) with
        | Some u => res_json (JObj (select_exclude ["password"] (user_doc u)))
        | None => res_json JNull
        end
    end, s ).
Proof.
  unfold get_auth. run_handler.
  destruct (castObjectId uid) as [o|]; simpl; [|done].
  by destruct (findOne _ (users s)).
Qed.

Lemma get_profile_me_eq (uid : string) (s : Store) :
  get_profile_me uid s =
  ( match castObjectId uid with
    | None => server_error
    | Some o =>
        match findOne (fun p => user p = o) (profiles s) with
        | Some p => res_json (populate_user (users s) p)
        | None => no_profile
        end
    end, s ).
Proof.
  unfold get_profile_me. run_handler.
  destruct (castObjectId uid) as [o|]; simpl; [|done].
  by destruct (findOne _ (profiles s)).
Qed.

Lemma get_profile_user_eq (param : string) (s : Store) :
  get_profile_user param s =
  ( match castObjectId param with
    | None => profile_not_found
    | Some o =>
        match findOne (fun p => user p = o) (profiles s) with
        | Some p => res_json (populate_user (users s) p)
        | None => profile_not_found
        end
    end, s ).
Proof.
  unfold get_profile_user. run_handler.
  destruct (castObjectId param) as [o|]; simpl; [|done].
  by destruct (findOne _ (profiles s)).
Qed.

Lemma get_profiles_eq (s : Store) :
  get_profiles s = (res_json (JArr (populate_user (users s) <$> profiles s)), s).
Proof. done. Qed.

(** The identity fetch of an id that no stored user has answers 200 with
    the body [null]. *)
Lemma get_auth_unknown_user (uid : string) (o : ObjectId) (s : Store) :
  castObjectId uid = Some o ->
  (forall u, u ∈ users s -> u_id u <> o) ->
  get_auth uid s = (mkResponse 200 (Json JNull), s).
Proof.
  intros Hcast Hno. rewrite get_auth_eq, Hcast.
  by rewrite (proj2 (findOne_None _ (users s))).
Qed.

(** C7: the public fetch by user id answers 400 with
    [{msg: "Profile not found"}] both for an id that does not cast to an
    ObjectId and for an id that no profile references, and it never answers
    500. *)
Theorem profile_by_user_malformed_is_not_found (param : string) (s : Store) :
  (castObjectId param = None
   \/ exists o, castObjectId param = Some o
               /\ forall p, p ∈ profiles s -> user p <> o) ->
  get_profile_user param s
  = (mkResponse 400 (Json (JObj [("msg", JStr "Profile not found")])), s)
  /\ forall param' s', status (get_profile_user param' s').1 <> 500.
Proof.
  intros Hcase. split.
  - rewrite get_profile_user_eq.
    destruct Hcase as [-> | (o & -> & Hno)]; [done|].
    by rewrite (proj2 (findOne_None _ (profiles s))).
  - intros param' s'. rewrite get_profile_user_eq. simpl.
    destruct (castObjectId param') as [o|]; [|done].
    by destruct (findOne _ (profiles s')).
Qed.

(** *** Delete *)

Lemma delete_profile_eq (uid : string) (s : Store) :
  delete_profile uid s =
  match castObjectId uid with
  | None => (server_error, s)
  | Some o =>
      (user_removed,
       {| users := (findOneAndRemove (fun u => u_id u = o) (users s)).2;
          profiles := (findOneAndRemove (fun p => user p = o) (profiles s)).2 |})
  end.
Proof.
  unfold delete_profile, Profile_findOneAndRemove, User_findOneAndRemove.
  run_handler.
  destruct (castObjectId uid) as [o|]; simpl; [|done].
  destruct (findOneAndRemove _ (profiles s)) as [p ps]; simpl.
  by destruct (findOneAndRemove _ (users s)) as [u us].
Qed.

(** With at most one profile per user and one user per id, the delete
    leaves the documents of everybody else and nothing of this user. *)
Lemma delete_profile_wf (uid : string) (o : ObjectId) (s : Store) :
  castObjectId uid = Some o -> store_wf s ->
  delete_profile uid s =
  (user_removed,
   {| users := filter (fun u => u_id u <> o) (users s);
      profiles := filter (fun p => user p <> o) (profiles s) |}).
Proof.
  intros Hcast [Hids _ _ _ Hone]. rewrite delete_profile_eq, Hcast.
  by rewrite (findOneAndRemove_filter u_id _ o (users s)),
    (findOneAndRemove_filter user _ o (profiles s)).
Qed.

(** C8: for an authenticated user, in a store with at most one profile per
    user and one user per id, the delete answers "User removed" and leaves a
    store in which no profile references the user and no user has the id
    (everybody else's documents stay); afterwards the fetch of the own
    profile answers that there is no profile and [User.findById] resolves
    to nothing. *)
Theorem delete_removes_profile_and_user
    (uid : string) (o : ObjectId) (s : Store) :
  castObjectId uid = Some o ->
  store_wf s ->
  exists s' : Store,
    delete_profile uid s = (user_removed, s')
    /\ (forall p, p ∈ profiles s' <-> p ∈ profiles s /\ user p <> o)
    /\ (forall u, u ∈ users s' <-> u ∈ users s /\ u_id u <> o)
    /\ get_profile_me uid s' =
       (mkResponse 400
          (Json (JObj [("errors",
             JArr [JObj [("msg", JStr "There is no profile for this user")]])])),
        s')
    /\ User_findById uid s' = (Ok None, s').
Proof.
  intros Hcast Hwf. eexists. split; [by apply delete_profile_wf|].
  simpl. split_and!.
  - intros p. rewrite list_elem_of_filter. tauto.
  - intros u. rewrite list_elem_of_filter. tauto.
  - rewrite get_profile_me_eq, Hcast. simpl.
    rewrite (proj2 (findOne_None _ _)); [done|].
    intros p Hp. by apply list_elem_of_filter in Hp as [? _].
  - run_handler. rewrite Hcast. simpl.
    rewrite (proj2 (findOne_None _ _)); [done|].
    intros u Hu. by apply list_elem_of_filter in Hu as [? _].
Qed.

(** C10: for every authenticated id, whether or not a profile or a user
    exists for it, the delete answers 200 with [{msg: "User removed"}], and
    so does a second delete.  Where no profile refers to the id the profiles
    stay as they are, and where no user has it the users do; and in a store
    with at most one profile per user and one user per id, the first delete
    leaves exactly the documents of the other users, nothing of this one,
    and the second delete leaves that store as it is. *)
Theorem delete_is_total_and_idempotent
    (uid : string) (o : ObjectId) (s : Store) :
  castObjectId uid = Some o ->
  exists s1 s2 : Store,
    delete_profile uid s
    = (mkResponse 200 (Json (JObj [("msg", JStr "User removed")])), s1)
    /\ delete_profile uid s1
       = (mkResponse 200 (Json (JObj [("msg", JStr "User removed")])), s2)
    /\ ((forall p, p ∈ profiles s -> user p <> o) -> profiles s1 = profiles s)
    /\ ((forall u, u ∈ users s -> u_id u <> o) -> users s1 = users s)
    /\ (store_wf s ->
        s1 = {| users := filter (fun u => u_id u <> o) (users s);
                profiles := filter (fun p => user p <> o) (profiles s) |}
        /\ (forall p, p ∈ profiles s1 -> user p <> o)
        /\ (forall u, u ∈ users s1 -> u_id u <> o)
        /\ s2 = s1).
Proof.
  intros Hcast. do 2 eexists. split_and!.
  - rewrite delete_profile_eq, Hcast. reflexivity.
  - rewrite delete_profile_eq, Hcast. reflexivity.
  - intros Hno. cbn [profiles]. by rewrite findOneAndRemove_idem.
  - intros Hno. cbn [users]. by rewrite findOneAndRemove_idem.
  - intros [Hids _ _ _ Hone]. cbn [users profiles].
    rewrite (findOneAndRemove_filter u_id _ o (users s)),
      (findOneAndRemove_filter user _ o (profiles s)) by done.
    split_and!; [done| | |].
    + intros p Hp. by apply list_elem_of_filter in Hp as [? _].
    + intros u Hu. by apply list_elem_of_filter in Hu as [? _].
    + rewrite !findOneAndRemove_idem; [done|..].
      * intros u Hu. by apply list_elem_of_filter in Hu as [? _].
      * intros p Hp. by apply list_elem_of_filter in Hp as [? _].
Qed.

(** *** Upsert *)

(** What the upsert does once the request has passed its checks. *)
Lemma post_profile_checked
    (e : Env) (uid : string) (b : ProfileBody) (f l un : string) (s : Store) :
  valid_body b f l un ->
  post_profile e uid b s =
  let fields := {| pf_user := uid; pf_firstName := f; pf_lastName := l;
                   pf_username := un |} in
  match castObjectId uid with
  | None => (server_error, s)
  | Some o =>
      match findOne (fun u => u_id u = o) (users s) with
      | None => (user_not_registered, s)
      | Some _ =>
          match list_find (fun p => user p = o) (profiles s) with
          | Some (i, p) =>
              let p' := set_fields o fields p in
              if username_taken (delete i (profiles s)) p'
              then (server_error, s)
              else (res_json (profile_json p'),
                    {| users := users s; profiles := <[i := p']> (profiles s) |})
          | None =>
              let p := {| p_id := fresh_id e; user := o; firstName := f;
                          lastName := l; username := un; date := now e |} in
              if id_taken (profiles s) p || username_taken (profiles s) p
              then (server_error, s)
              else (res_json (profile_json p),
                    {| users := users s; profiles := profiles s ++ [p] |})
          end
      end
  end.
Proof.
  intros (-> & Hf & Hl & Hun).
  destruct f as [|f0 f]; [done|]. destruct l as [|l0 l]; [done|].
  destruct un as [|un0 un]; [done|].
  unfold post_profile. cbn [check_not_isEmpty pb_firstName pb_lastName
    pb_username app bool_decide negb default from_option].
  replace (negb (bool_decide (@nil json = []))) with false by done.
  unfold Profile_findOneAndUpdate, new_Profile, Profile_save,
    findOneAndUpdate.
  unfold_handler. cbn [pf_user pf_firstName pf_lastName pf_username id].
  destruct (castObjectId uid) as [o|]; cbv beta iota zeta; [|done].
  destruct (findOne _ (users s)) as [u|]; cbv beta iota zeta; [|done].
  unfold findOne.
  destruct (list_find _ (profiles s)) as [[i p]|] eqn:Hfind;
    cbn [fmap option_fmap option_map snd]; cbv beta iota zeta.
  - rewrite Hfind. destruct (username_taken _ _); [done|].
    cbn [fmap option_fmap option_map opt_json default from_option id].
    done.
  - unfold schema_valid. cbn [firstName lastName username].
    rewrite !bool_decide_eq_false_2 by done. cbn [negb andb].
    by destruct (id_taken _ _ || username_taken _ _).
Qed.

(** A response that is not a success contradicts [status r = 200]. *)
Ltac not_ok :=
  exfalso; simplify_eq;
  match goal with H : status _ = 200 |- _ => vm_compute in H; discriminate H end.

Lemma findOne_registered (o : ObjectId) (s : Store) (u : User) :
  u ∈ users s -> u_id u = o ->
  exists v, findOne (fun u => u_id u = o) (users s) = Some v.
Proof.
  intros Hu Ho. destruct (findOne _ (users s)) as [v|] eqn:Hfind; [by eexists|].
  rewrite findOne_None in Hfind. by destruct (Hfind u).
Qed.

(** C4, as the code has it: when a registered user upserts a username that
    the profile of another user holds, the unique index refuses the write
    and the handler answers with its generic 500 "Server Error"; the store,
    and with it the other user's profile, is as it was. *)
Theorem username_collision_is_server_error
    (e : Env) (uid : string) (o : ObjectId) (b : ProfileBody)
    (f l un : string) (s : Store) (u : User) (p : Profile) :
  valid_body b f l un ->
  castObjectId uid = Some o ->
  u ∈ users s -> u_id u = o ->
  p ∈ profiles s -> user p <> o -> username p = un ->
  post_profile e uid b s = (mkResponse 500 (Text "Server Error"), s).
Proof.
  intros Hb Hcast Hu Ho Hp Hother Hun.
  rewrite (post_profile_checked e uid b f l un s Hb), Hcast.
  destruct (findOne_registered o s u Hu Ho) as [v ->]. cbv zeta.
  assert (forall ps, p ∈ ps -> forall q, username q = un -> username_taken ps q = true)
    as Htaken.
  { intros ps Hps q Hq. apply bool_decide_eq_true_2.
    rewrite Hq, <- Hun. by apply list_elem_of_fmap_2. }
  destruct (list_find _ (profiles s)) as [[i q]|] eqn:Hfind.
  - apply list_find_Some in Hfind as (Hi & Hq & _).
    rewrite Htaken; [done| |done].
    eapply list_elem_of_delete; [done..|]. by intros ->.
  - rewrite (Htaken (profiles s)) by done. by rewrite orb_true_r.
Qed.

(** C5: for a registered user whose profile is [p], in a store with one
    profile per user, an upsert with valid fields either leaves the store as
    it was or replaces [p], in place, by the document that has [p]'s [_id],
    [user] and [date] and the three fields of the request, which is also
    what it answers; the users are never touched, and the replacement
    happens exactly when no other profile holds the username. *)
Theorem upsert_updates_only_the_three_fields
    (e : Env) (uid : string) (o : ObjectId) (b : ProfileBody)
    (f l un : string) (s : Store) (u : User) (p : Profile) :
  valid_body b f l un ->
  castObjectId uid = Some o ->
  u ∈ users s -> u_id u = o ->
  NoDup (user <$> profiles s) ->
  p ∈ profiles s -> user p = o ->
  let p' := {| p_id := p_id p; user := user p; firstName := f; lastName := l;
               username := un; date := date p |} in
  exists i : nat,
    profiles s !! i = Some p
    /\ ((forall q, q ∈ delete i (profiles s) -> username q <> un) ->
        post_profile e uid b s =
        (mkResponse 200 (Json (profile_json p')),
         {| users := users s; profiles := <[i := p']> (profiles s) |}))
    /\ ((exists q, q ∈ delete i (profiles s) /\ username q = un) ->
        post_profile e uid b s = (server_error, s)).
Proof.
  intros Hb Hcast Hu Ho Hnd Hp Hpo p'.
  destruct (list_find_unique user (fun p => user p = o) o (profiles s) p)
    as [i Hfind]; [done..|].
  exists i. split; [by apply list_find_Some in Hfind as (? & _)|].
  rewrite (post_profile_checked e uid b f l un s Hb), Hcast.
  destruct (findOne_registered o s u Hu Ho) as [v ->]. cbv zeta.
  rewrite Hfind.
  assert (set_fields o {| pf_user := uid; pf_firstName := f; pf_lastName := l;
                          pf_username := un |} p = p') as ->.
  { unfold set_fields, p'. simpl. by rewrite Hpo. }
  split.
  - intros Hfree. unfold username_taken.
    rewrite bool_decide_eq_false_2; [done|].
    intros (q & Hq & Hin)%list_elem_of_fmap. by eapply Hfree.
  - intros (q & Hin & Hq). unfold username_taken.
    rewrite bool_decide_eq_true_2; [done|].
    simpl. rewrite <- Hq. by apply list_elem_of_fmap_2.
Qed.

(** X12: the first upsert of a registered user creates the profile, when the
    username and the fresh id are free. *)
Lemma post_profile_creates
    (e : Env) (uid : string) (o : ObjectId) (b : ProfileBody)
    (f l un : string) (s : Store) (u : User) :
  valid_body b f l un ->
  castObjectId uid = Some o ->
  u ∈ users s -> u_id u = o ->
  (forall p, p ∈ profiles s ->
     user p <> o /\ username p <> un /\ p_id p <> fresh_id e) ->
  let p := {| p_id := fresh_id e; user := o; firstName := f; lastName := l;
              username := un; date := now e |} in
  post_profile e uid b s =
  (mkResponse 200 (Json (profile_json p)),
   {| users := users s; profiles := profiles s ++ [p] |}).
Proof.
  intros Hb Hcast Hu Ho Hfree p.
  rewrite (post_profile_checked e uid b f l un s Hb), Hcast.
  destruct (findOne_registered o s u Hu Ho) as [v ->]. cbv zeta.
  rewrite (proj2 (list_find_None _ (profiles s))).
  2:{ apply Forall_forall. intros q Hq. by apply Hfree. }
  unfold id_taken, username_taken.
  rewrite !bool_decide_eq_false_2; [done|..].
  - intros (q & Hq & Hin)%list_elem_of_fmap.
    destruct (Hfree q Hin) as (_ & Hne & _). by apply Hne.
  - intros (q & Hq & Hin)%list_elem_of_fmap.
    destruct (Hfree q Hin) as (_ & _ & Hne). by apply Hne.
Qed.

(** When an upsert with valid fields has answered 200, it answered with a
    profile of the store it left, and the same upsert on that store answers
    the same and leaves the store as it is, whatever the clock and the fresh
    id of the second request. *)
Lemma post_profile_repeats
    (e1 e2 : Env) (uid : string) (b : ProfileBody) (f l un : string)
    (s s1 : Store) (r1 : Response) :
  valid_body b f l un ->
  post_profile e1 uid b s = (r1, s1) ->
  status r1 = 200 ->
  exists p : Profile,
    r1 = mkResponse 200 (Json (profile_json p))
    /\ p ∈ profiles s1
    /\ post_profile e2 uid b s1 = (r1, s1).
Proof.
  intros Hb H1 Hok.
  rewrite (post_profile_checked e1 uid b f l un s Hb) in H1.
  rewrite (post_profile_checked e2 uid b f l un s1 Hb).
  cbv zeta in *.
  destruct (castObjectId uid) as [o|]; [|by not_ok].
  destruct (findOne _ (users s)) as [u|] eqn:Hu; [|by not_ok].
  destruct (list_find _ (profiles s)) as [[i p]|] eqn:Hfind.
  - destruct (username_taken _ _) eqn:Htaken; [by not_ok|].
    simplify_eq. simpl. rewrite Hu.
    apply list_find_Some in Hfind as (Hi & Hp & Hleast).
    set (p' := set_fields _ _ p) in *.
    exists p'. split; [done|]. split.
    { eapply list_elem_of_lookup_2. apply list_lookup_insert_eq.
      by eapply lookup_lt_Some. }
    assert (list_find (fun q => user q = o) (<[i := p']> (profiles s))
            = Some (i, p')) as ->.
    { apply list_find_insert_Some. right; left.
      split_and!; [done..|by eapply lookup_lt_Some|done|done]. }
    assert (set_fields o
              {| pf_user := uid; pf_firstName := f; pf_lastName := l;
                 pf_username := un |} p' = p') as -> by done.
    by rewrite list_delete_insert, Htaken, list_insert_insert_eq.
  - destruct (id_taken _ _ || username_taken _ _) eqn:Htaken; [by not_ok|].
    apply orb_false_elim in Htaken as [_ Htaken].
    simplify_eq. simpl. rewrite Hu.
    set (p := mkProfile _ _ _ _ _ _) in *.
    exists p. split; [done|]. split; [apply elem_of_app; right; left|].
    rewrite list_find_app_r by done. simpl.
    rewrite decide_True by done. simpl.
    assert (set_fields o
              {| pf_user := uid; pf_firstName := f; pf_lastName := l;
                 pf_username := un |} p = p) as -> by done.
    rewrite list_delete_snoc, Htaken.
    rewrite list_insert_id; [done|]. by apply list_lookup_middle.
Qed.

(** *** What the answers show of a user *)

Lemma select_password_excluded (u : User) :
  select_exclude ["password"] (user_doc u) =
  [("_id", JStr (u_id u)); ("email", JStr (email u))]
  ++ match avatar u with Some a => [("avatar", JStr a)] | None => [] end.
Proof. destruct u as [i em pw [a|]]; reflexivity. Qed.

Lemma select_avatar_email (u : User) :
  select_include ["avatar"; "email"] (user_doc u) =
  [("_id", JStr (u_id u)); ("email", JStr (email u))]
  ++ match avatar u with Some a => [("avatar", JStr a)] | None => [] end.
Proof. destruct u as [i em pw [a|]]; reflexivity. Qed.

Lemma populate_user_no_password (us : list User) (p : Profile) :
  json_has_key "password" (populate_user us p) = false.
Proof.
  unfold populate_user. destruct (findOne _ us) as [u|]; [|reflexivity].
  rewrite select_avatar_email. by destruct (avatar u).
Qed.

Lemma populate_all_no_password (us : list User) (ps : list Profile) :
  existsb (json_has_key "password") (populate_user us <$> ps) = false.
Proof.
  induction ps as [|p ps IH]; [done|].
  rewrite fmap_cons. cbn [existsb].
  by rewrite populate_user_no_password, IH.
Qed.

Lemma findOne_forget_password (o : ObjectId) (us : list User) :
  findOne (fun u => u_id u = o) (forget_password <$> us)
  = forget_password <$> findOne (fun u => u_id u = o) us.
Proof.
  unfold findOne. rewrite list_find_fmap.
  rewrite <- !option_fmap_compose. done.
Qed.

Lemma findOne_email_forget_password (em : option string) (us : list User) :
  findOne (fun u => Some (email u) = em) (forget_password <$> us)
  = forget_password <$> findOne (fun u => Some (email u) = em) us.
Proof.
  unfold findOne. rewrite list_find_fmap.
  rewrite <- !option_fmap_compose. done.
Qed.

Lemma populate_user_forget_password (us : list User) (p : Profile) :
  populate_user (forget_password <$> us) p = populate_user us p.
Proof.
  unfold populate_user. rewrite findOne_forget_password.
  destruct (findOne _ us) as [u|]; [|done].
  cbn [fmap option_fmap option_map].
  by rewrite !select_avatar_email.
Qed.

(** The four reads answer from the store with the password hashes blanked
    what they answer from the store itself. *)
Lemma reads_forget_password (s : Store) (uid : string) :
  (get_auth uid (blank s)).1 = (get_auth uid s).1
  /\ (get_profile_me uid (blank s)).1 = (get_profile_me uid s).1
  /\ (get_profiles (blank s)).1 = (get_profiles s).1
  /\ (get_profile_user uid (blank s)).1 = (get_profile_user uid s).1.
Proof.
  rewrite !get_auth_eq, !get_profile_me_eq, !get_profile_user_eq,
    !get_profiles_eq.
  cbn [fst blank users profiles]. split_and!.
  - destruct (castObjectId uid) as [o|]; [|done].
    rewrite findOne_forget_password.
    destruct (findOne _ (users s)) as [u|]; [|done].
    cbn [fmap option_fmap option_map].
    by rewrite !select_password_excluded.
  - destruct (castObjectId uid) as [o|]; [|done].
    destruct (findOne _ (profiles s)) as [p|]; [|done].
    by rewrite populate_user_forget_password.
  - do 2 f_equal. apply list_fmap_ext. intros _ p _.
    apply populate_user_forget_password.
  - destruct (castObjectId uid) as [o|]; [|done].
    destruct (findOne _ (profiles s)) as [p|]; [|done].
    by rewrite populate_user_forget_password.
Qed.

Lemma same_but_passwords_blank (s1 s2 : Store) :
  same_but_passwords s1 s2 -> blank s1 = blank s2.
Proof. intros [Hu Hp]. unfold blank. by rewrite Hu, Hp. Qed.

(** Every route but the login answers from the blanked store what it
    answers from the store. *)
Lemma handle_forget_password (e : Env) (r : Request) (s : Store) :
  (forall b, r <> POST_auth b) ->
  (handle e r (blank s)).1 = (handle e r s).1.
Proof.
  intros Hr. destruct (reads_forget_password s "") as (_ & _ & Hall & _).
  destruct r as [uid|b|uid|uid b| |param|uid]; cbn [handle]; [|by destruct (Hr b)|..].
  - by destruct (reads_forget_password s uid) as (? & _).
  - by destruct (reads_forget_password s uid) as (_ & ? & _).
  - destruct b as [[[|f0 f]|] [[|l0 l]|] [[|un0 un]|]]; try done.
    rewrite !(post_profile_checked e uid _ (String f0 f) (String l0 l)
                (String un0 un)) by done.
    cbv zeta. cbn [blank users profiles].
    destruct (castObjectId uid) as [o|]; [|done].
    rewrite findOne_forget_password.
    destruct (findOne _ (users s)) as [u|]; [|done].
    cbn [fmap option_fmap option_map].
    destruct (list_find _ (profiles s)) as [[i p]|].
    + by destruct (username_taken _ _).
    + by destruct (id_taken _ _ || username_taken _ _).
  - done.
  - by destruct (reads_forget_password s param) as (_ & _ & _ & ?).
  - rewrite !delete_profile_eq. by destruct (castObjectId uid).
Qed.

(** Two logins that both succeed on stores that differ only in the
    password hashes answer with the same token. *)
Lemma post_auth_forget_password (e : Env) (b : LoginBody) (s1 s2 : Store) :
  same_but_passwords s1 s2 ->
  status (post_auth e b s1).1 = 200 ->
  status (post_auth e b s2).1 = 200 ->
  (post_auth e b s1).1 = (post_auth e b s2).1.
Proof.
  intros [Hsame _].
  destruct b as [[em|] [pw|]];
    [|unfold post_auth, check_isEmail; simpl; try destruct (isEmail em); done..].
  destruct (isEmail em) eqn:Hem.
  2:{ unfold post_auth, check_isEmail. simpl. by rewrite Hem. }
  rewrite !post_auth_eq by done. cbn [fst].
  pose proof (findOne_email_forget_password (Some em) (users s1)) as H1.
  pose proof (findOne_email_forget_password (Some em) (users s2)) as H2.
  rewrite Hsame, H2 in H1. clear H2.
  destruct (findOne _ (users s1)) as [u1|], (findOne _ (users s2)) as [u2|];
    simplify_eq/=; [|done].
  assert (u_id u1 = u_id u2) as ->.
  { by destruct u1, u2; simplify_eq/=. }
  destruct pw as [|?|?|pw|?|?]; try done.
  destruct (bcrypt_compare pw (password u1)),
    (bcrypt_compare pw (password u2)); done.
Qed.

Lemma handle_no_password (e : Env) (r : Request) (s : Store) :
  body_has_key "password" (body (handle e r s).1) = false.
Proof.
  destruct r as [uid|b|uid|uid b| |param|uid]; cbn [handle].
  - rewrite get_auth_eq. cbn [fst].
    destruct (castObjectId uid) as [o|]; [|done].
    destruct (findOne _ (users s)) as [u|]; [|done].
    cbn [body res_json body_has_key].
    rewrite select_password_excluded. by destruct (avatar u).
  - destruct b as [[em|] [pw|]].
    + destruct (isEmail em) eqn:Hem.
      * rewrite post_auth_eq by done. cbn [fst].
        destruct (findOne _ (users s)) as [u|]; [|done].
        destruct pw as [|?|?|pw|?|?]; try done.
        by destruct (bcrypt_compare pw (password u)).
      * unfold post_auth, check_isEmail. simpl. by rewrite Hem.
    + unfold post_auth, check_isEmail. simpl. by destruct (isEmail em).
    + done.
    + done.
  - rewrite get_profile_me_eq. cbn [fst].
    destruct (castObjectId uid) as [o|]; [|done].
    destruct (findOne _ (profiles s)) as [p|]; [|done].
    apply populate_user_no_password.
  - destruct b as [[[|f0 f]|] [[|l0 l]|] [[|un0 un]|]]; try done.
    rewrite (post_profile_checked e uid _ (String f0 f) (String l0 l)
               (String un0 un)) by done.
    cbv zeta.
    destruct (castObjectId uid) as [o|]; [|done].
    destruct (findOne _ (users s)) as [u|]; [|done].
    destruct (list_find _ (profiles s)) as [[i p]|].
    + by destruct (username_taken _ _).
    + by destruct (id_taken _ _ || username_taken _ _).
  - rewrite get_profiles_eq. cbn [fst]. apply populate_all_no_password.
  - rewrite get_profile_user_eq. cbn [fst].
    destruct (castObjectId param) as [o|]; [|done].
    destruct (findOne _ (profiles s)) as [p|]; [|done].
    apply populate_user_no_password.
  - rewrite delete_profile_eq. by destruct (castObjectId uid).
Qed.

(** C9: no answer of any route has a [password] key at any depth; the
    identity fetch renders a user as its [_id], [email] and [avatar]; a
    populated profile shows, in place of the id of its user, that id with
    the user's [email] and [avatar] and nothing else; and the answers do not
    depend on the password hashes in the store: on two stores that differ
    only in them, two answers 200 to the same request are the same, and
    every route but the login answers the same whatever its status. *)
Theorem password_hash_is_never_served :
  (forall (e : Env) (r : Request) (s : Store),
     body_has_key "password" (body (handle e r s).1) = false)
  /\ (forall u : User,
       keys (select_exclude ["password"] (user_doc u)) ⊆ ["_id"; "email"; "avatar"])
  /\ (forall (us : list User) (p : Profile),
       populate_user us p = profile_doc p JNull
       \/ exists fields,
            populate_user us p
            = profile_doc p (JObj (("_id", JStr (user p)) :: fields))
            /\ keys fields ⊆ ["email"; "avatar"])
  /\ (forall (e : Env) (r : Request) (s1 s2 : Store),
       same_but_passwords s1 s2 ->
       status (handle e r s1).1 = 200 ->
       status (handle e r s2).1 = 200 ->
       (handle e r s1).1 = (handle e r s2).1)
  /\ (forall (e : Env) (r : Request) (s1 s2 : Store),
       same_but_passwords s1 s2 ->
       (forall b, r <> POST_auth b) ->
       (handle e r s1).1 = (handle e r s2).1).
Proof.
  split_and!.
  - apply handle_no_password.
  - intros u. rewrite select_password_excluded.
    unfold keys. destruct (avatar u); simpl; intros k Hk;
      repeat (apply elem_of_cons in Hk as [->|Hk]; [by repeat constructor|]);
      by apply elem_of_nil in Hk.
  - intros us p. unfold populate_user.
    destruct (findOne _ us) as [u|] eqn:Hu; [right|by left].
    apply findOne_Some_inv in Hu as [_ <-].
    rewrite select_avatar_email. eexists. split; [reflexivity|].
    unfold keys. destruct (avatar u); simpl; intros k Hk;
      repeat (apply elem_of_cons in Hk as [->|Hk]; [by repeat constructor|]);
      by apply elem_of_nil in Hk.
  - intros e r s1 s2 Hsame Hok1 Hok2.
    assert ((exists b, r = POST_auth b) \/ forall b, r <> POST_auth b)
      as [[b ->]|Hr] by (destruct r; eauto).
    + by apply post_auth_forget_password.
    + rewrite <- (handle_forget_password e r s1), <- (handle_forget_password e r s2)
        by done.
      by rewrite (same_but_passwords_blank s1 s2).
  - intros e r s1 s2 Hsame%same_but_passwords_blank Hr.
    rewrite <- (handle_forget_password e r s1), <- (handle_forget_password e r s2)
      by done.
    by rewrite Hsame.
Qed.

(** *** The invariants are kept *)

Lemma findOneAndRemove_NoDup {A K} (key : A -> K) (P : A -> Prop)
    `{!forall x, Decision (P x)} (docs : list A) :
  NoDup (key <$> docs) -> NoDup (key <$> (findOneAndRemove P docs).2).
Proof.
  intros Hnd. unfold findOneAndRemove.
  destruct (list_find P docs) as [[i d]|]; [|done].
  simpl. rewrite list_fmap_delete. by apply NoDup_delete.
Qed.

Lemma post_profile_wf (e : Env) (uid : string) (b : ProfileBody) (s : Store) :
  store_wf s -> store_wf (post_profile e uid b s).2.
Proof.
  intros Hwf.
  destruct b as [[[|f0 f]|] [[|l0 l]|] [[|un0 un]|]]; try done.
  rewrite (post_profile_checked e uid _ (String f0 f) (String l0 l)
             (String un0 un)) by done.
  cbv zeta.
  destruct (castObjectId uid) as [o|]; [|done].
  destruct (findOne _ (users s)) as [u|]; [|done].
  destruct Hwf as [Hids Hemails Hpids Hnames Hone].
  destruct (list_find _ (profiles s)) as [[i p]|] eqn:Hfind.
  - destruct (username_taken _ _) eqn:Htaken; [done|].
    apply list_find_Some in Hfind as (Hi & Hp & _).
    apply bool_decide_eq_false_1 in Htaken.
    split; cbn [snd users profiles]; [done..| | |].
    + rewrite list_fmap_insert, list_insert_id; [done|].
      by rewrite list_lookup_fmap, Hi.
    + rewrite list_fmap_insert. apply NoDup_insert_fresh; [done|].
      by rewrite <- list_fmap_delete.
    + rewrite list_fmap_insert, list_insert_id; [done|].
      rewrite list_lookup_fmap, Hi. simpl. by rewrite Hp.
  - destruct (id_taken _ _ || username_taken _ _) eqn:Htaken; [done|].
    apply orb_false_elim in Htaken as [Hid Hname].
    apply bool_decide_eq_false_1 in Hid, Hname.
    apply list_find_None in Hfind. rewrite Forall_forall in Hfind.
    split; cbn [snd users profiles]; [done..| | |];
      rewrite fmap_app; apply NoDup_snoc_fresh; try done.
    intros (q & Hq & Hin)%list_elem_of_fmap. by destruct (Hfind q).
Qed.

(** X1: every route keeps the invariants of the store. *)
Lemma handle_wf (e : Env) (r : Request) (s : Store) :
  store_wf s -> store_wf (handle e r s).2.
Proof.
  intros Hwf.
  destruct r as [uid|b|uid|uid b| |param|uid]; cbn [handle].
  - by rewrite get_auth_eq.
  - destruct b as [[em|] [pw|]];
      [|unfold post_auth, check_isEmail; simpl; try destruct (isEmail em); done..].
    destruct (isEmail em) eqn:Hem.
    + by rewrite post_auth_eq.
    + unfold post_auth, check_isEmail. simpl. by rewrite Hem.
  - by rewrite get_profile_me_eq.
  - by apply post_profile_wf.
  - by rewrite get_profiles_eq.
  - by rewrite get_profile_user_eq.
  - rewrite delete_profile_eq. destruct (castObjectId uid) as [o|]; [|done].
    destruct Hwf as [Hids Hemails Hpids Hnames Hone].
    split; cbn [snd users profiles]; by apply findOneAndRemove_NoDup.
Qed.

(** *** More on the routes: what they leave alone *)

(** The login and the four reads leave the store as it is, whatever they
    answer. *)
Lemma handle_read_only (e : Env) (r : Request) (s : Store) :
  is_write r = false -> (handle e r s).2 = s.
Proof.
  destruct r as [uid|b|uid|uid b| |param|uid]; cbn [handle is_write];
    try discriminate; intros _.
  - by rewrite get_auth_eq.
  - destruct b as [[em|] [pw|]];
      [|unfold post_auth, check_isEmail; simpl; try destruct (isEmail em); done..].
    destruct (isEmail em) eqn:Hem.
    + by rewrite post_auth_eq.
    + unfold post_auth, check_isEmail. simpl. by rewrite Hem.
  - by rewrite get_profile_me_eq.
  - by rewrite get_profiles_eq.
  - by rewrite get_profile_user_eq.
Qed.

(** The body of an upsert either has the three fields, none empty, or is
    answered 400 before the store is read. *)
Lemma post_profile_body_cases (e : Env) (uid : string) (b : ProfileBody) (s : Store) :
  (exists f l un, valid_body b f l un)
  \/ (status (post_profile e uid b s).1 = 400 /\ (post_profile e uid b s).2 = s).
Proof.
  destruct b as [[[|f0 f]|] [[|l0 l]|] [[|un0 un]|]]; try (by right).
  left. by exists (String f0 f), (String l0 l), (String un0 un).
Qed.



(** X3: every route keeps the profiles attached to users, in a store with one
    profile per user and one user per id: the upsert writes for a registered
    user only, and the delete takes the user's profile with the user. *)
Theorem handle_keeps_no_orphans (e : Env) (r : Request) (s : Store) :
  store_wf s -> no_orphans s -> no_orphans (handle e r s).2.
Proof.
  intros Hwf Horph. destruct (is_write r) eqn:Hw.
  2:{ by rewrite handle_read_only. }
  destruct r as [uid|b|uid|uid b| |param|uid]; try discriminate; cbn [handle].
  - destruct (post_profile_body_cases e uid b s) as [(f & l & un & Hb)|[_ ->]];
      [|done].
    rewrite (post_profile_checked e uid b f l un s Hb). cbv zeta.
    destruct (castObjectId uid) as [o|]; [|done].
    destruct (findOne _ (users s)) as [u|] eqn:Hu; [|done].
    apply findOne_Some_inv in Hu as [Hu Ho].
    destruct (list_find _ (profiles s)) as [[i p]|] eqn:Hfind.
    + destruct (username_taken _ _); [done|].
      intros q Hq. cbn [snd users profiles] in *.
      apply list_elem_of_lookup in Hq as [j Hj].
      apply list_lookup_insert_Some in Hj as [(-> & <- & _)|[_ Hj]].
      * by exists u.
      * apply Horph. by eapply list_elem_of_lookup_2.
    + destruct (id_taken _ _ || username_taken _ _); [done|].
      intros q Hq. cbn [snd users profiles] in *.
      apply elem_of_app in Hq as [Hq|Hq]; [by apply Horph|].
      apply list_elem_of_singleton in Hq as ->. by exists u.
  - destruct (castObjectId uid) as [o|] eqn:Hcast.
    2:{ by rewrite delete_profile_eq, Hcast. }
    rewrite (delete_profile_wf uid o s Hcast Hwf).
    intros q Hq. cbn [snd users profiles] in *.
    apply list_elem_of_filter in Hq as [Hne Hq].
    destruct (Horph q Hq) as (u & Hu & Hid).
    exists u. split; [|done]. apply list_elem_of_filter. split; [congruence|done].
Qed.

(** X4: the login and the reads never write: whatever the request and whatever
    they answer, the store they leave is the store they found. *)
Theorem reads_and_login_never_write (e : Env) (r : Request) (s : Store) :
  is_write r = false -> (handle e r s).2 = s.
Proof. apply handle_read_only. Qed.

(** X5: the upsert of a user never touches the users, never touches the profile
    of another user (each stays at its place), adds no profile but one of
    this user, and writes nothing at all unless it answers 200. *)
Theorem upsert_frame
    (e : Env) (uid : string) (o : ObjectId) (b : ProfileBody) (s : Store) :
  castObjectId uid = Some o ->
  let r := (post_profile e uid b s).1 in
  let s' := (post_profile e uid b s).2 in
  users s' = users s
  /\ (forall i q, profiles s !! i = Some q -> user q <> o ->
                 profiles s' !! i = Some q)
  /\ (forall q, q ∈ profiles s' -> q ∈ profiles s \/ user q = o)
  /\ (status r <> 200 -> s' = s).
Proof.
  intros Hcast r s'. subst r s'.
  destruct (post_profile_body_cases e uid b s) as [(f & l & un & Hb)|[H400 ->]].
  2:{ split_and!; auto. }
  rewrite (post_profile_checked e uid b f l un s Hb), Hcast. cbv zeta.
  destruct (findOne _ (users s)) as [u|]; [|split_and!; auto].
  destruct (list_find _ (profiles s)) as [[i p]|] eqn:Hfind.
  - destruct (username_taken _ _); [split_and!; auto|].
    apply list_find_Some in Hfind as (Hi & Hp & _).
    cbn [fst snd users profiles]. split_and!; [done| | |done].
    + intros j q Hj Hne. rewrite list_lookup_insert_ne; [done|].
      intros ->. congruence.
    + intros q [j Hj]%list_elem_of_lookup.
      apply list_lookup_insert_Some in Hj as [(-> & <- & _)|[_ Hj]].
      * by right.
      * left. by eapply list_elem_of_lookup_2.
  - destruct (id_taken _ _ || username_taken _ _); [split_and!; auto|].
    cbn [fst snd users profiles]. split_and!; [done| | |done].
    + intros j q Hj _. by apply lookup_app_l_Some.
    + intros q [Hq|Hq]%elem_of_app; [by left|].
      apply list_elem_of_singleton in Hq as ->. by right.
Qed.

Lemma findOneAndRemove_frame {A} (P : A -> Prop) `{!forall x, Decision (P x)}
    (docs : list A) :
  (findOneAndRemove P docs).2 `sublist_of` docs
  /\ (length docs <= length (findOneAndRemove P docs).2 + 1)%nat
  /\ (forall d, d ∈ docs -> ~ P d -> d ∈ (findOneAndRemove P docs).2).
Proof.
  unfold findOneAndRemove.
  destruct (list_find P docs) as [[i x]|] eqn:Hfind; cbn [snd].
  - apply list_find_Some in Hfind as (Hi & Hx & _). split_and!.
    + apply sublist_delete.
    + rewrite length_delete by eauto. lia.
    + intros d Hd Hnot. eapply list_elem_of_delete; [done..|]. by intros ->.
  - split_and!; [done|lia|done].
Qed.

(** X6: the delete removes at most one profile and at most one user (the first
    of each that matches: [user] carries no unique index), adds nothing, and
    never removes a document of another user. *)
Theorem delete_frame (uid : string) (o : ObjectId) (s : Store) :
  castObjectId uid = Some o ->
  let s' := (delete_profile uid s).2 in
  profiles s' `sublist_of` profiles s
  /\ users s' `sublist_of` users s
  /\ (length (profiles s) <= length (profiles s') + 1)%nat
  /\ (length (users s) <= length (users s') + 1)%nat
  /\ (forall p, p ∈ profiles s -> user p <> o -> p ∈ profiles s')
  /\ (forall u, u ∈ users s -> u_id u <> o -> u ∈ users s').
Proof.
  intros Hcast s'. subst s'. rewrite delete_profile_eq, Hcast.
  cbn [snd users profiles].
  destruct (findOneAndRemove_frame (fun p => user p = o) (profiles s))
    as (? & ? & ?).
  destruct (findOneAndRemove_frame (fun u => u_id u = o) (users s))
    as (? & ? & ?).
  split_and!; auto.
Qed.

(** What a login that answered 200 has checked. *)
Lemma post_auth_ok_inv (e : Env) (b : LoginBody) (s : Store) :
  status (post_auth e b s).1 = 200 ->
  exists (em pw : string) (u : User),
    b = {| lb_email := Some em; lb_password := Some (JStr pw) |}
    /\ isEmail em = true
    /\ u ∈ users s /\ email u = em
    /\ bcrypt_compare pw (password u) = true
    /\ (post_auth e b s).1 =
       mkResponse 200
         (Json (JObj [("token",
            JStr (jwt_sign {| userId := u_id u |} jwtSecret jwtExpiration
                    (now e)))])).
Proof.
  destruct b as [[em|] [pw|]];
    [|unfold post_auth, check_isEmail; simpl; try destruct (isEmail em); done..].
  destruct (isEmail em) eqn:Hem.
  2:{ unfold post_auth, check_isEmail. simpl. by rewrite Hem. }
  rewrite post_auth_eq by done. cbn [fst].
  destruct (findOne _ (users s)) as [u|] eqn:Hu; [|done].
  apply findOne_Some_inv in Hu as [Hu [= Hmail]].
  destruct pw as [|?|?|pw|?|?]; try done.
  destruct (bcrypt_compare pw (password u)) eqn:Hpw; [|done].
  intros _. by exists em, pw, u.
Qed.

(** X7: the login issues a token only for a request that passed its checks, to
    a stored user that has the email, and after bcrypt accepted the password
    against that user's hash; the token is signed for that user's id. *)
Theorem login_only_with_accepted_password
    (e : Env) (b : LoginBody) (s : Store) :
  status (post_auth e b s).1 = 200 ->
  exists (em pw : string) (u : User),
    b = {| lb_email := Some em; lb_password := Some (JStr pw) |}
    /\ isEmail em = true
    /\ u ∈ users s /\ email u = em
    /\ bcrypt_compare pw (password u) = true
    /\ (post_auth e b s).1 =
       mkResponse 200
         (Json (JObj [("token",
            JStr (jwt_sign {| userId := u_id u |} jwtSecret jwtExpiration
                    (now e)))])).
Proof. apply post_auth_ok_inv. Qed.

(** X8: a token tells its user: when two logins, at whatever times and on
    whatever stores, answer 200 with the same token, the users that logged
    in have the same id. *)
Theorem login_tokens_tell_users_apart
    (e1 e2 : Env) (b1 b2 : LoginBody) (s1 s2 : Store) :
  jwt_roundtrip ->
  status (post_auth e1 b1 s1).1 = 200 ->
  status (post_auth e2 b2 s2).1 = 200 ->
  (post_auth e1 b1 s1).1 = (post_auth e2 b2 s2).1 ->
  exists (u1 u2 : User),
    u1 ∈ users s1 /\ Some (email u1) = lb_email b1
    /\ u2 ∈ users s2 /\ Some (email u2) = lb_email b2
    /\ u_id u1 = u_id u2.
Proof.
  intros Hjwt Hok1 Hok2 Hsame.
  destruct (post_auth_ok_inv e1 b1 s1 Hok1)
    as (em1 & pw1 & u1 & -> & _ & Hu1 & <- & _ & Hr1).
  destruct (post_auth_ok_inv e2 b2 s2 Hok2)
    as (em2 & pw2 & u2 & -> & _ & Hu2 & <- & _ & Hr2).
  exists u1, u2. split_and!; [done..|].
  rewrite Hr1, Hr2 in Hsame. injection Hsame as Htok.
  set (t' := Z.min (now e1) (now e2) + jwtExpiration - 1).
  pose proof (Hjwt {| userId := u_id u1 |} jwtSecret jwtExpiration (now e1) t')
    as H1.
  pose proof (Hjwt {| userId := u_id u2 |} jwtSecret jwtExpiration (now e2) t')
    as H2.
  rewrite Htok, H2 in H1 by (subst t'; lia).
  assert (Some {| userId := u_id u2 |} = Some {| userId := u_id u1 |}) as [= ->];
    [apply H1; subst t'; lia | done].
Qed.

(** X11: an id that does not cast to an ObjectId is answered 500 by the four
    private routes, which write nothing; only the public fetch by user id
    turns the cast error into its 400. *)
Theorem malformed_id_is_server_error_on_private_routes
    (e : Env) (uid : string) (b : ProfileBody) (f l un : string) (s : Store) :
  castObjectId uid = None ->
  valid_body b f l un ->
  get_auth uid s = (mkResponse 500 (Text "Server Error"), s)
  /\ get_profile_me uid s = (mkResponse 500 (Text "Server Error"), s)
  /\ post_profile e uid b s = (mkResponse 500 (Text "Server Error"), s)
  /\ delete_profile uid s = (mkResponse 500 (Text "Server Error"), s)
  /\ get_profile_user uid s =
     (mkResponse 400 (Json (JObj [("msg", JStr "Profile not found")])), s).
Proof.
  intros Hcast Hb.
  rewrite get_auth_eq, get_profile_me_eq, delete_profile_eq,
    get_profile_user_eq, (post_profile_checked e uid b f l un s Hb), Hcast.
  done.
Qed.

(** *** More on the routes: the checks of the requests *)

(** X10: an upsert with a blank field is answered 400 with one error for every
    blank field, in the order of the checks, and none for the others; the
    store is not read (the answer is the same for every user id, well-formed
    or not, and every store) and not written. *)
Theorem upsert_lists_every_blank_field
    (e : Env) (uid : string) (b : ProfileBody) (s : Store) :
  let blank_fields := filter (fun c => is_blank c.2 = true) (profile_checks b) in
  blank_fields <> [] ->
  post_profile e uid b s =
  (mkResponse 400
     (Json (JObj [("errors",
        JArr ((fun c => validation_error c.1.1 c.1.2 c.2) <$> blank_fields))])),
   s).
Proof.
  destruct b as [[[|f0 f]|] [[|l0 l]|] [[|un0 un]|]]; intros blank_fields Hne;
    try reflexivity.
  by destruct Hne.
Qed.

(** X9: a login without a password, or with an email that is absent or not an
    email, is answered 400 with the error of each failing check; the answer
    is not the one for wrong credentials, and it is the same for every
    store: no user is looked up. *)
Theorem login_checks_precede_lookup (e : Env) (b : LoginBody) (s : Store) :
  (lb_password b = None
   \/ lb_email b = None
   \/ exists em, lb_email b = Some em /\ isEmail em = false) ->
  exists errors : list json,
    post_auth e b s = (mkResponse 400 (Json (JObj [("errors", JArr errors)])), s)
    /\ (lb_password b = None ->
        validation_error "password" "Password is required" None ∈ errors)
    /\ ((forall em, lb_email b = Some em -> isEmail em = false) ->
        validation_error "email" "Please include a valid email" (lb_email b)
        ∈ errors)
    /\ (post_auth e b s).1 <> invalid_credentials
    /\ (forall e' s', (post_auth e' b s').1 = (post_auth e b s).1).
Proof.
  intros Hbad.
  assert (b = {| lb_email := lb_email b; lb_password := lb_password b |}) as Hb
    by (by destruct b).
  destruct (lb_email b) as [em|] eqn:Hmail, (lb_password b) as [pw|] eqn:Hpass;
    rewrite Hb; unfold post_auth, check_isEmail; simpl.
  - destruct Hbad as [?|[?|(em' & [= <-] & Hem)]]; [done..|].
    rewrite Hem. simpl. eexists. split; [reflexivity|].
    split_and!; [done| |done|done]. intros _. left.
  - destruct (isEmail em) eqn:Hem; simpl; eexists; (split; [reflexivity|]).
    + split_and!; [intros _; left| |done|done].
      intros Hall. specialize (Hall em eq_refl). congruence.
    + split_and!; [intros _; right; left|intros _; left|done|done].
  - eexists. split; [reflexivity|]. split_and!; [done|intros _; left|done|done].
  - eexists. split; [reflexivity|].
    split_and!; [intros _; right; left|intros _; left|done|done].
Qed.

(** *** More on the routes: how they compose *)

(** A well-formed id that no user has is answered 400 "User not
    registered" by the upsert, which writes nothing, not even when a profile
    refers to the id. *)
Lemma post_profile_unregistered
    (e : Env) (uid : string) (o : ObjectId) (b : ProfileBody)
    (f l un : string) (s : Store) :
  valid_body b f l un ->
  castObjectId uid = Some o ->
  (forall u, u ∈ users s -> u_id u <> o) ->
  post_profile e uid b s = (user_not_registered, s).
Proof.
  intros Hb Hcast Hno.
  rewrite (post_profile_checked e uid b f l un s Hb), Hcast. cbv zeta.
  by rewrite (proj2 (findOne_None _ (users s))).
Qed.

(** X14: after the delete, an upsert with the token of the deleted account is
    answered 400 "User not registered" and creates no profile. *)
Theorem upsert_after_delete_is_not_registered
    (e : Env) (uid : string) (o : ObjectId) (b : ProfileBody)
    (f l un : string) (s : Store) :
  valid_body b f l un ->
  castObjectId uid = Some o ->
  store_wf s ->
  let s' := (delete_profile uid s).2 in
  post_profile e uid b s' =
  (mkResponse 400
     (Json (JObj [("errors", JArr [JObj [("msg", JStr "User not registered")]])])),
   s').
Proof.
  intros Hb Hcast Hwf s'. subst s'.
  rewrite (delete_profile_wf uid o s Hcast Hwf). cbn [snd].
  apply (post_profile_unregistered e uid o b f l un); [done..|].
  intros u Hu. by apply list_elem_of_filter in Hu as [? _].
Qed.


(** What an upsert that answered 200 has done: the answer is a profile of
    this user that carries the fields of the request, and it is the profile
    that a lookup by the user finds in the store it left. *)
Lemma post_profile_ok_inv
    (e : Env) (uid : string) (b : ProfileBody) (f l un : string)
    (s s1 : Store) (r1 : Response) :
  valid_body b f l un ->
  post_profile e uid b s = (r1, s1) ->
  status r1 = 200 ->
  exists (o : ObjectId) (p : Profile),
    castObjectId uid = Some o
    /\ r1 = res_json (profile_json p)
    /\ user p = o /\ firstName p = f /\ lastName p = l /\ username p = un
    /\ findOne (fun q => user q = o) (profiles s1) = Some p
    /\ users s1 = users s.
Proof.
  intros Hb H1 Hok.
  rewrite (post_profile_checked e uid b f l un s Hb) in H1. cbv zeta in H1.
  destruct (castObjectId uid) as [o|]; [|by not_ok].
  destruct (findOne _ (users s)) as [u|] eqn:Hu; [|by not_ok].
  destruct (list_find _ (profiles s)) as [[i p]|] eqn:Hfind.
  - destruct (username_taken _ _) eqn:Htaken; [by not_ok|].
    simplify_eq. apply list_find_Some in Hfind as (Hi & Hp & Hleast).
    eexists _, _. split_and!; [done..| |done].
    unfold findOne. cbn [profiles].
    erewrite (proj2 (list_find_insert_Some _ _ _ i _ _)); [done|].
    right; left. split_and!; [done..|by eapply lookup_lt_Some|done|done].
  - destruct (id_taken _ _ || username_taken _ _) eqn:Htaken; [by not_ok|].
    simplify_eq. eexists _, _. split_and!; [done..| |done].
    unfold findOne. cbn [profiles].
    rewrite list_find_app_r by done. simpl. by rewrite decide_True.
Qed.

(** X13: write, then read: after an upsert that answered 200, the fetch of the
    own profile and the public fetch by the user's id both answer 200 with
    the profile the upsert answered, its [user] populated; the profile
    carries the three fields of the request. *)
Theorem upsert_then_fetch
    (e : Env) (uid : string) (b : ProfileBody) (f l un : string)
    (s s1 : Store) (r1 : Response) :
  valid_body b f l un ->
  post_profile e uid b s = (r1, s1) ->
  status r1 = 200 ->
  exists p : Profile,
    r1 = mkResponse 200 (Json (profile_json p))
    /\ firstName p = f /\ lastName p = l /\ username p = un
    /\ get_profile_me uid s1
       = (mkResponse 200 (Json (populate_user (users s1) p)), s1)
    /\ get_profile_user uid s1
       = (mkResponse 200 (Json (populate_user (users s1) p)), s1).
Proof.
  intros Hb H1 Hok.
  destruct (post_profile_ok_inv e uid b f l un s s1 r1 Hb H1 Hok)
    as (o & p & Hcast & -> & _ & Hf & Hl & Hun & Hfind & _).
  exists p. rewrite get_profile_me_eq, get_profile_user_eq, Hcast, Hfind.
  by split_and!.
Qed.

(** X16: the identity fetch of a stored user answers 200 with the user's [_id],
    [email] and, when it has one, [avatar]. *)
Theorem identity_fetch_returns_the_user (uid : string) (u : User) (s : Store) :
  NoDup (u_id <$> users s) ->
  u ∈ users s ->
  castObjectId uid = Some (u_id u) ->
  get_auth uid s =
  (mkResponse 200
     (Json (JObj ([("_id", JStr (u_id u)); ("email", JStr (email u))]
                  ++ match avatar u with
                     | Some a => [("avatar", JStr a)]
                     | None => []
                     end))),
   s).
Proof.
  intros Hnd Hu Hcast. rewrite get_auth_eq, Hcast.
  rewrite (findOne_unique u_id _ (u_id u) (users s) u); [|done..].
  by rewrite select_password_excluded.
Qed.

(** X17: the private fetch of the own profile and the public fetch by user id
    succeed on the same ids and stores, and then answer the same; where
    they fail they differ ([{errors: [{msg}]}] or 500 against [{msg}]). *)
Theorem own_and_public_fetch_agree (uid : string) (s : Store) :
  (status (get_profile_me uid s).1 = 200
   <-> status (get_profile_user uid s).1 = 200)
  /\ (status (get_profile_me uid s).1 = 200 ->
      get_profile_me uid s = get_profile_user uid s)
  /\ (status (get_profile_me uid s).1 <> 200 ->
      (get_profile_me uid s).1 <> (get_profile_user uid s).1).
Proof.
  rewrite get_profile_me_eq, get_profile_user_eq. cbn [fst].
  destruct (castObjectId uid) as [o|]; [|by split_and!].
  destruct (findOne _ (profiles s)) as [p|]; by split_and!.
Qed.

(** X18: the list of all profiles has one entry for every stored profile, in the
    order of the store, and with one profile per user the entry of a profile
    is what the public fetch by its user's id answers. *)
Theorem list_agrees_with_fetch_by_user
    (uid : string) (i : nat) (p : Profile) (s : Store) :
  NoDup (user <$> profiles s) ->
  profiles s !! i = Some p ->
  castObjectId uid = Some (user p) ->
  exists (entries : list json) (entry : json),
    get_profiles s = (mkResponse 200 (Json (JArr entries)), s)
    /\ length entries = length (profiles s)
    /\ entries !! i = Some entry
    /\ get_profile_user uid s = (mkResponse 200 (Json entry), s).
Proof.
  intros Hnd Hi Hcast. rewrite get_profiles_eq, get_profile_user_eq, Hcast.
  rewrite (findOne_unique user _ (user p) (profiles s) p);
    [|done|done|by eapply list_elem_of_lookup_2|done].
  eexists _, _. split_and!; [reflexivity| | |reflexivity].
  - by rewrite length_fmap.
  - by rewrite list_lookup_fmap, Hi.
Qed.

(** *** The upsert, twice *)

Lemma NoDup_not_elem_of_delete {A} (l : list A) (i : nat) (x : A) :
  NoDup l -> l !! i = Some x -> x ∉ delete i l.
Proof.
  intros Hnd Hi. rewrite (delete_Permutation l i x Hi) in Hnd.
  by apply NoDup_cons in Hnd as [? _].
Qed.

(** C6: for a registered user, valid fields whose username no profile of
    another user holds, and a fresh id that no profile has, in a store with
    one profile per user: the upsert answers 200 with a profile of this user
    that carries the three fields; where the user had no profile the first
    call creates it (the fresh id, the time of the call, appended to the
    store), and where the user had one the first call replaces it in place,
    keeping its [_id] and [date]; the users are untouched; and the same
    upsert again, at any time and with any fresh id, answers with the same
    profile, hence the same [_id], and leaves the store of the first call
    as it is. *)
Theorem upsert_is_idempotent
    (e1 e2 : Env) (uid : string) (o : ObjectId) (b : ProfileBody)
    (f l un : string) (s : Store) (u : User) :
  valid_body b f l un ->
  castObjectId uid = Some o ->
  u ∈ users s -> u_id u = o ->
  NoDup (user <$> profiles s) ->
  (forall q, q ∈ profiles s -> user q <> o -> username q <> un) ->
  (forall q, q ∈ profiles s -> p_id q <> fresh_id e1) ->
  exists (p : Profile) (s1 : Store),
    post_profile e1 uid b s = (mkResponse 200 (Json (profile_json p)), s1)
    /\ post_profile e2 uid b s1 = (mkResponse 200 (Json (profile_json p)), s1)
    /\ user p = o /\ firstName p = f /\ lastName p = l /\ username p = un
    /\ users s1 = users s
    /\ (((forall q, q ∈ profiles s -> user q <> o)
         /\ p_id p = fresh_id e1 /\ date p = now e1
         /\ profiles s1 = profiles s ++ [p])
        \/ (exists (i : nat) (p0 : Profile),
              profiles s !! i = Some p0 /\ user p0 = o
              /\ p_id p = p_id p0 /\ date p = date p0
              /\ profiles s1 = <[i := p]> (profiles s))).
Proof.
  intros Hb Hcast Hu Ho Hnd Hname Hid.
  assert (exists p s1,
    post_profile e1 uid b s = (res_json (profile_json p), s1)
    /\ user p = o /\ firstName p = f /\ lastName p = l /\ username p = un
    /\ users s1 = users s
    /\ (((forall q, q ∈ profiles s -> user q <> o)
         /\ p_id p = fresh_id e1 /\ date p = now e1
         /\ profiles s1 = profiles s ++ [p])
        \/ (exists i p0,
              profiles s !! i = Some p0 /\ user p0 = o
              /\ p_id p = p_id p0 /\ date p = date p0
              /\ profiles s1 = <[i := p]> (profiles s))))
    as (p & s1 & H1 & Hrest).
  { rewrite (post_profile_checked e1 uid b f l un s Hb), Hcast.
    destruct (findOne_registered o s u Hu Ho) as [v ->]. cbv zeta.
    destruct (list_find _ (profiles s)) as [[i p0]|] eqn:Hfind.
    - apply list_find_Some in Hfind as (Hi & Hp0 & _).
      unfold username_taken. rewrite bool_decide_eq_false_2.
      + eexists _, _. split; [reflexivity|]. cbn [users profiles].
        split_and!; [done..|]. right. by exists i, p0.
      + cbn [username set_fields pf_username].
        intros (q & Hq & Hin)%list_elem_of_fmap.
        assert (q ∈ profiles s) as Hin'.
        { eapply elem_of_sublist; [done|apply sublist_delete]. }
        eapply Hname; [done| |done].
        intros Hqo.
        apply (NoDup_not_elem_of_delete (user <$> profiles s) i o); [done| |].
        * by rewrite list_lookup_fmap, Hi; simpl; rewrite Hp0.
        * rewrite <- list_fmap_delete, <- Hqo. by apply list_elem_of_fmap_2.
    - apply list_find_None in Hfind. rewrite Forall_forall in Hfind.
      unfold id_taken, username_taken. rewrite !bool_decide_eq_false_2.
      + eexists _, _. split; [reflexivity|]. cbn [users profiles].
        split_and!; [done..|]. by left.
      + intros (q & Hq & Hin)%list_elem_of_fmap.
        by eapply Hname; [done|by apply Hfind|].
      + intros (q & Hq & Hin)%list_elem_of_fmap. by eapply Hid. }
  exists p, s1. split; [done|]. split; [|done].
  destruct (post_profile_repeats e1 e2 uid b f l un s s1 _ Hb H1 eq_refl)
    as (p' & _ & _ & H2).
  done.
Qed.

End Properties.

(** ** The routes on the small platform *)

Lemma Toy_strip_prefix_app (k rest : string) :
  Toy.strip_prefix k (k +:+ rest) = Some rest.
Proof.
  induction k as [|a k IH]; simpl; [by destruct rest|].
  by rewrite bool_decide_eq_true_2.
Qed.

Lemma Toy_read_ticks_ticks (n : nat) (uid : string) :
  Toy.read_ticks (Toy.ticks n (String "." uid)) = Some (n, uid).
Proof. induction n as [|n IH]; simpl; [done|]. by rewrite IH. Qed.

Lemma Toy_jwt_roundtrip : @jwt_roundtrip Toy.platform.
Proof.
  intros [uid] k ttl t t' Ht. simpl. unfold Toy.verify, Toy.sign. simpl.
  rewrite Toy_strip_prefix_app, Toy_read_ticks_ticks.
  rewrite bool_decide_eq_true_2; [done | lia].
Qed.

Lemma Toy_jwt_verify_sound : @jwt_verify_sound Toy.platform.
Proof.
  intros [uid] p' k ttl t t'. simpl. unfold Toy.verify, Toy.sign. simpl.
  rewrite Toy_strip_prefix_app, Toy_read_ticks_ticks.
  case_bool_decide; congruence.
Qed.

Lemma Toy_store0_wf : store_wf Toy.store0.
Proof. split; apply (bool_decide_unpack _); vm_compute; exact I. Qed.

(** Membership in a list that is written out. *)
Ltac each_elem H :=
  repeat (apply elem_of_cons in H as [->|H]); [..|by apply elem_of_nil in H].

(** Alice logs in at time 8 with her password; the token expires at 13. *)
Lemma login_token_identifies_user_witness :
  exists token : string,
    post_auth (H := Toy.platform) Toy.env0 (Toy.login "alice@x.com" "secret")
      Toy.store0
    = (mkResponse 200 (Json (JObj [("token", JStr token)])), Toy.store0)
    /\ (forall t' : Z,
         t' < 8 + 5 ->
         Toy.verify token "s3cret" t' = Some {| userId := Toy.alice_id |})
    /\ (forall (t' : Z) (claim : Payload),
         Toy.verify token "s3cret" t' = Some claim ->
         userId claim = Toy.alice_id).
Proof.
  apply (login_token_identifies_user (H := Toy.platform)
           Toy.env0 Toy.store0 Toy.alice "secret").
  - exact Toy_jwt_roundtrip.
  - exact Toy_jwt_verify_sound.
  - exact (wf_emails _ Toy_store0_wf).
  - left.
  - reflexivity.
  - reflexivity.
Defined.

(** Carol is not registered; Alice is, and "wrong" is not her password. *)
Lemma login_failures_indistinguishable_witness :
  (post_auth (H := Toy.platform) Toy.env0 (Toy.login "carol@x.com" "secret")
     Toy.store0).1
  = (post_auth (H := Toy.platform) Toy.env1 (Toy.login "alice@x.com" "wrong")
       Toy.store0).1
  /\ (post_auth (H := Toy.platform) Toy.env0 (Toy.login "carol@x.com" "secret")
        Toy.store0).1
     = mkResponse 400
         (Json (JObj [("errors", JArr [JObj [("msg", JStr "Invalid Credentials")]])])).
Proof.
  apply (login_failures_indistinguishable (H := Toy.platform)
           Toy.env0 Toy.env1 Toy.store0 Toy.store0 "carol@x.com" "secret"
           "wrong" Toy.alice).
  - reflexivity.
  - intros v Hv. each_elem Hv; discriminate.
  - reflexivity.
  - exact (wf_emails _ Toy_store0_wf).
  - left.
  - reflexivity.
Defined.

(** C2, on the code: the login asks of the password only that it exists, so
    a password that is present but no string ([null] here) passes the check.
    For the email of a registered user it reaches [bcrypt.compare], which
    throws, and the answer is 500 "Server Error"; for an email that no user
    has, the same request is answered 400 "Invalid Credentials" before any
    comparison.  The two failures differ, and tell the caller whether the
    email is registered. *)
Theorem login_null_password_tells_registered_email :
  let registered :=
    post_auth (H := Toy.platform) Toy.env0
      {| lb_email := Some "alice@x.com"; lb_password := Some JNull |}
      Toy.store0 in
  let unknown :=
    post_auth (H := Toy.platform) Toy.env0
      {| lb_email := Some "carol@x.com"; lb_password := Some JNull |}
      Toy.store0 in
  registered = (mkResponse 500 (Text "Server Error"), Toy.store0)
  /\ unknown =
     (mkResponse 400
        (Json (JObj [("errors", JArr [JObj [("msg", JStr "Invalid Credentials")]])])),
      Toy.store0)
  /\ registered.1 <> unknown.1.
Proof. split_and!; [reflexivity..|discriminate]. Qed.

(** C3, on the code: the identity fetch has no case for an id that does not
    resolve.  With a token issued before the account was deleted it answers
    200 with the body [null], not a failure. *)
Theorem identity_fetch_of_deleted_user_is_200_null :
  let s' := (delete_profile (H := Toy.platform) Toy.alice_id Toy.store0).2 in
  (forall u, u ∈ users s' -> u_id u <> Toy.alice_id)
  /\ get_auth (H := Toy.platform) Toy.alice_id s'
     = (mkResponse 200 (Json JNull), s')
  /\ get_auth (H := Toy.platform) Toy.carol_id Toy.store0
     = (mkResponse 200 (Json JNull), Toy.store0).
Proof.
  split_and!; [|reflexivity..].
  intros u Hu. vm_compute in Hu. each_elem Hu. discriminate.
Qed.

(** Bob, who is registered and has no profile, asks for the username that
    Alice's profile holds: the answer is the catch-all 500, which tells of no
    conflict. *)
Lemma username_collision_counterexample :
  Toy.alice ∈ users Toy.store0
  /\ Toy.bob ∈ users Toy.store0
  /\ u_id Toy.alice <> u_id Toy.bob
  /\ Toy.alice_profile ∈ profiles Toy.store0
  /\ user Toy.alice_profile = u_id Toy.alice
  /\ username Toy.alice_profile = "alice"
  /\ post_profile (H := Toy.platform) Toy.env0 Toy.bob_id
       (Toy.body "Bob" "Builder" "alice") Toy.store0
     = (mkResponse 500 (Text "Server Error"), Toy.store0)
  /\ ~ reports_conflict
         (post_profile (H := Toy.platform) Toy.env0 Toy.bob_id
            (Toy.body "Bob" "Builder" "alice") Toy.store0).1.
Proof.
  split_and!; [left|right; left|discriminate|left|reflexivity..|].
  intros [_ Hgeneric]. by apply Hgeneric.
Qed.

(** The same request, as an instance of the general statement. *)
Lemma username_collision_is_server_error_witness :
  post_profile (H := Toy.platform) Toy.env0 Toy.bob_id
    (Toy.body "Bob" "Builder" "alice") Toy.store0
  = (mkResponse 500 (Text "Server Error"), Toy.store0).
Proof.
  apply (username_collision_is_server_error (H := Toy.platform)
           Toy.env0 Toy.bob_id Toy.bob_id (Toy.body "Bob" "Builder" "alice")
           "Bob" "Builder" "alice" Toy.store0 Toy.bob Toy.alice_profile).
  - by split_and!.
  - reflexivity.
  - right; left.
  - reflexivity.
  - left.
  - discriminate.
  - reflexivity.
Defined.

(** Alice renames herself. *)
Lemma upsert_updates_only_the_three_fields_witness :
  let p' := {| p_id := p_id Toy.alice_profile; user := user Toy.alice_profile;
               firstName := "Alice"; lastName := "Kingsleigh";
               username := "alice_k"; date := date Toy.alice_profile |} in
  exists i : nat,
    profiles Toy.store0 !! i = Some Toy.alice_profile
    /\ ((forall q, q ∈ delete i (profiles Toy.store0) -> username q <> "alice_k") ->
        post_profile (H := Toy.platform) Toy.env0 Toy.alice_id
          (Toy.body "Alice" "Kingsleigh" "alice_k") Toy.store0 =
        (mkResponse 200 (Json (profile_json p')),
         {| users := users Toy.store0;
            profiles := <[i := p']> (profiles Toy.store0) |}))
    /\ ((exists q, q ∈ delete i (profiles Toy.store0) /\ username q = "alice_k") ->
        post_profile (H := Toy.platform) Toy.env0 Toy.alice_id
          (Toy.body "Alice" "Kingsleigh" "alice_k") Toy.store0
        = (server_error, Toy.store0)).
Proof.
  apply (upsert_updates_only_the_three_fields (H := Toy.platform)
           Toy.env0 Toy.alice_id Toy.alice_id
           (Toy.body "Alice" "Kingsleigh" "alice_k")
           "Alice" "Kingsleigh" "alice_k" Toy.store0 Toy.alice
           Toy.alice_profile).
  - by split_and!.
  - reflexivity.
  - left.
  - reflexivity.
  - exact (wf_one_profile _ Toy_store0_wf).
  - left.
  - reflexivity.
Defined.

(** Bob, who has no profile, creates one at time 8, then sends the same
    request again at time 9: the profile created by the first call is the
    answer both times, and the second call leaves the store of the first. *)
Lemma upsert_is_idempotent_witness :
  let p := {| p_id := fresh_id Toy.env0; user := Toy.bob_id;
              firstName := "Bob"; lastName := "Builder"; username := "bob";
              date := now Toy.env0 |} in
  let s1 := {| users := users Toy.store0;
               profiles := profiles Toy.store0 ++ [p] |} in
  post_profile (H := Toy.platform) Toy.env0 Toy.bob_id
    (Toy.body "Bob" "Builder" "bob") Toy.store0
  = (mkResponse 200 (Json (profile_json p)), s1)
  /\ post_profile (H := Toy.platform) Toy.env1 Toy.bob_id
       (Toy.body "Bob" "Builder" "bob") s1
     = (mkResponse 200 (Json (profile_json p)), s1).
Proof.
  destruct (upsert_is_idempotent (H := Toy.platform) Toy.env0 Toy.env1
              Toy.bob_id Toy.bob_id (Toy.body "Bob" "Builder" "bob")
              "Bob" "Builder" "bob" Toy.store0 Toy.bob)
    as (p & s1 & H1 & H2 & _).
  - by split_and!.
  - reflexivity.
  - right; left.
  - reflexivity.
  - exact (wf_one_profile _ Toy_store0_wf).
  - intros q Hq. each_elem Hq. discriminate.
  - intros q Hq. each_elem Hq. discriminate.
  - destruct p as [pid pu pf pl pn pd]. vm_compute in H1.
    injection H1 as <- <- <- <- <- <- <-.
    split; [reflexivity | exact H2].
Defined.

(** An id that is no ObjectId. *)
Lemma profile_by_user_malformed_is_not_found_witness :
  get_profile_user (H := Toy.platform) "not-an-id" Toy.store0
  = (mkResponse 400 (Json (JObj [("msg", JStr "Profile not found")])), Toy.store0)
  /\ forall param' s',
       status (get_profile_user (H := Toy.platform) param' s').1 <> 500.
Proof.
  apply (profile_by_user_malformed_is_not_found (H := Toy.platform)).
  left. reflexivity.
Defined.

(** Alice deletes her account. *)
Lemma delete_removes_profile_and_user_witness :
  exists s' : Store,
    delete_profile (H := Toy.platform) Toy.alice_id Toy.store0 = (user_removed, s')
    /\ (forall p, p ∈ profiles s' <-> p ∈ profiles Toy.store0 /\ user p <> Toy.alice_id)
    /\ (forall u, u ∈ users s' <-> u ∈ users Toy.store0 /\ u_id u <> Toy.alice_id)
    /\ get_profile_me (H := Toy.platform) Toy.alice_id s' =
       (mkResponse 400
          (Json (JObj [("errors",
             JArr [JObj [("msg", JStr "There is no profile for this user")]])])),
        s')
    /\ User_findById (H := Toy.platform) Toy.alice_id s' = (Ok None, s').
Proof.
  apply (delete_removes_profile_and_user (H := Toy.platform)
           Toy.alice_id Toy.alice_id Toy.store0).
  - reflexivity.
  - exact Toy_store0_wf.
Defined.

(** Alice, who has a profile, deletes her account, twice: Bob is what is
    left after the first delete, and after the second. *)
Lemma delete_is_total_and_idempotent_witness :
  delete_profile (H := Toy.platform) Toy.alice_id Toy.store0
  = (mkResponse 200 (Json (JObj [("msg", JStr "User removed")])),
     {| users := [Toy.bob]; profiles := [] |})
  /\ delete_profile (H := Toy.platform) Toy.alice_id
       {| users := [Toy.bob]; profiles := [] |}
     = (mkResponse 200 (Json (JObj [("msg", JStr "User removed")])),
        {| users := [Toy.bob]; profiles := [] |}).
Proof.
  destruct (delete_is_total_and_idempotent (H := Toy.platform)
              Toy.alice_id Toy.alice_id Toy.store0 eq_refl)
    as (s1 & s2 & H1 & H2 & _ & _ & Hwf).
  destruct (Hwf Toy_store0_wf) as (Hs1 & _ & _ & Hs2).
  subst s2. subst s1. split; [exact H1 | exact H2].
Defined.

(** ** More on the routes, on the small platform *)


Lemma Toy_store0_no_orphans : no_orphans Toy.store0.
Proof.
  intros p Hp. each_elem Hp. exists Toy.alice. split; [left|reflexivity].
Qed.

(** Bob creates his profile: the store stays well formed. *)
Lemma handle_wf_witness :
  store_wf
    (handle (H := Toy.platform) Toy.env0
       (POST_profile Toy.bob_id (Toy.body "Bob" "Builder" "bob")) Toy.store0).2.
Proof. apply (handle_wf (H := Toy.platform)). exact Toy_store0_wf. Defined.


(** Alice deletes her account. *)
Lemma handle_keeps_no_orphans_witness :
  no_orphans
    (handle (H := Toy.platform) Toy.env0 (DELETE_profile Toy.alice_id)
       Toy.store0).2.
Proof.
  apply (handle_keeps_no_orphans (H := Toy.platform)).
  - exact Toy_store0_wf.
  - exact Toy_store0_no_orphans.
Defined.

(** Alice logs in. *)
Lemma reads_and_login_never_write_witness :
  (handle (H := Toy.platform) Toy.env0
     (POST_auth (Toy.login "alice@x.com" "secret")) Toy.store0).2
  = Toy.store0.
Proof.
  apply (reads_and_login_never_write (H := Toy.platform)). reflexivity.
Defined.

(** Bob creates his profile: Alice's stays where it is. *)
Lemma upsert_frame_witness :
  let r := (post_profile (H := Toy.platform) Toy.env0 Toy.bob_id
              (Toy.body "Bob" "Builder" "bob") Toy.store0).1 in
  let s' := (post_profile (H := Toy.platform) Toy.env0 Toy.bob_id
               (Toy.body "Bob" "Builder" "bob") Toy.store0).2 in
  users s' = users Toy.store0
  /\ (forall i q, profiles Toy.store0 !! i = Some q -> user q <> Toy.bob_id ->
                 profiles s' !! i = Some q)
  /\ (forall q, q ∈ profiles s' -> q ∈ profiles Toy.store0 \/ user q = Toy.bob_id)
  /\ (status r <> 200 -> s' = Toy.store0).
Proof.
  apply (upsert_frame (H := Toy.platform) Toy.env0 Toy.bob_id Toy.bob_id).
  reflexivity.
Defined.

(** Alice deletes her account: Bob stays. *)
Lemma delete_frame_witness :
  let s' := (delete_profile (H := Toy.platform) Toy.alice_id Toy.store0).2 in
  profiles s' `sublist_of` profiles Toy.store0
  /\ users s' `sublist_of` users Toy.store0
  /\ (length (profiles Toy.store0) <= length (profiles s') + 1)%nat
  /\ (length (users Toy.store0) <= length (users s') + 1)%nat
  /\ (forall p, p ∈ profiles Toy.store0 -> user p <> Toy.alice_id ->
               p ∈ profiles s')
  /\ (forall u, u ∈ users Toy.store0 -> u_id u <> Toy.alice_id -> u ∈ users s').
Proof.
  apply (delete_frame (H := Toy.platform) Toy.alice_id Toy.alice_id).
  reflexivity.
Defined.

(** Alice logs in with her password. *)
Lemma login_only_with_accepted_password_witness :
  exists (em pw : string) (u : User),
    Toy.login "alice@x.com" "secret"
    = {| lb_email := Some em; lb_password := Some (JStr pw) |}
    /\ Toy.is_email em = true
    /\ u ∈ users Toy.store0 /\ email u = em
    /\ Toy.compare pw (password u) = true
    /\ (post_auth (H := Toy.platform) Toy.env0
          (Toy.login "alice@x.com" "secret") Toy.store0).1 =
       mkResponse 200
         (Json (JObj [("token",
            JStr (Toy.sign {| userId := u_id u |} "s3cret" 5 8))])).
Proof.
  apply (login_only_with_accepted_password (H := Toy.platform)).
  reflexivity.
Defined.

(** Alice logs in twice at the same time and gets the same token twice. *)
Lemma login_tokens_tell_users_apart_witness :
  exists (u1 u2 : User),
    u1 ∈ users Toy.store0
    /\ Some (email u1) = lb_email (Toy.login "alice@x.com" "secret")
    /\ u2 ∈ users Toy.store0
    /\ Some (email u2) = lb_email (Toy.login "alice@x.com" "secret")
    /\ u_id u1 = u_id u2.
Proof.
  apply (login_tokens_tell_users_apart (H := Toy.platform)
           Toy.env0 Toy.env0 _ _ Toy.store0 Toy.store0).
  - exact Toy_jwt_roundtrip.
  - reflexivity.
  - reflexivity.
  - reflexivity.
Defined.

(** An id that is no ObjectId, on every route that takes one. *)
Lemma malformed_id_is_server_error_on_private_routes_witness :
  get_auth (H := Toy.platform) "me" Toy.store0
  = (mkResponse 500 (Text "Server Error"), Toy.store0)
  /\ get_profile_me (H := Toy.platform) "me" Toy.store0
     = (mkResponse 500 (Text "Server Error"), Toy.store0)
  /\ post_profile (H := Toy.platform) Toy.env0 "me"
       (Toy.body "Bob" "Builder" "bob") Toy.store0
     = (mkResponse 500 (Text "Server Error"), Toy.store0)
  /\ delete_profile (H := Toy.platform) "me" Toy.store0
     = (mkResponse 500 (Text "Server Error"), Toy.store0)
  /\ get_profile_user (H := Toy.platform) "me" Toy.store0 =
     (mkResponse 400 (Json (JObj [("msg", JStr "Profile not found")])),
      Toy.store0).
Proof.
  apply (malformed_id_is_server_error_on_private_routes (H := Toy.platform)
           Toy.env0 "me" (Toy.body "Bob" "Builder" "bob") "Bob" "Builder" "bob").
  - reflexivity.
  - by split_and!.
Defined.

(** A body without a last name and with an empty username. *)
Lemma upsert_lists_every_blank_field_witness :
  post_profile (H := Toy.platform) Toy.env0 "me"
    {| pb_firstName := Some "Bob"; pb_lastName := None; pb_username := Some "" |}
    Toy.store0 =
  (mkResponse 400
     (Json (JObj [("errors",
        JArr [validation_error "lastName" "Last Name is required" None;
              validation_error "username" "Username is required" (Some "")])])),
   Toy.store0).
Proof.
  apply (upsert_lists_every_blank_field (H := Toy.platform) Toy.env0 "me"
           {| pb_firstName := Some "Bob"; pb_lastName := None;
              pb_username := Some "" |} Toy.store0).
  discriminate.
Defined.

(** A login with Alice's email and no password. *)
Lemma login_checks_precede_lookup_witness :
  exists errors : list json,
    post_auth (H := Toy.platform) Toy.env0
      {| lb_email := Some "alice@x.com"; lb_password := None |} Toy.store0
    = (mkResponse 400 (Json (JObj [("errors", JArr errors)])), Toy.store0)
    /\ (@None json = None ->
        validation_error "password" "Password is required" None ∈ errors)
    /\ ((forall em, Some "alice@x.com" = Some em -> Toy.is_email em = false) ->
        validation_error "email" "Please include a valid email"
          (Some "alice@x.com") ∈ errors)
    /\ (post_auth (H := Toy.platform) Toy.env0
          {| lb_email := Some "alice@x.com"; lb_password := None |}
          Toy.store0).1 <> invalid_credentials
    /\ (forall e' s',
          (post_auth (H := Toy.platform) e'
             {| lb_email := Some "alice@x.com"; lb_password := None |} s').1
          = (post_auth (H := Toy.platform) Toy.env0
               {| lb_email := Some "alice@x.com"; lb_password := None |}
               Toy.store0).1).
Proof.
  apply (login_checks_precede_lookup (H := Toy.platform) Toy.env0
           {| lb_email := Some "alice@x.com"; lb_password := None |} Toy.store0).
  left. reflexivity.
Defined.

(** Alice deletes her account, then asks for a profile with her old token. *)
Lemma upsert_after_delete_is_not_registered_witness :
  let s' := (delete_profile (H := Toy.platform) Toy.alice_id Toy.store0).2 in
  post_profile (H := Toy.platform) Toy.env0 Toy.alice_id
    (Toy.body "Alice" "Liddell" "alice") s' =
  (mkResponse 400
     (Json (JObj [("errors", JArr [JObj [("msg", JStr "User not registered")]])])),
   s').
Proof.
  apply (upsert_after_delete_is_not_registered (H := Toy.platform) Toy.env0
           Toy.alice_id Toy.alice_id (Toy.body "Alice" "Liddell" "alice")
           "Alice" "Liddell" "alice" Toy.store0).
  - by split_and!.
  - reflexivity.
  - exact Toy_store0_wf.
Defined.


(** Bob, who has no profile, creates one. *)
Lemma post_profile_creates_witness :
  let p := {| p_id := fresh_id Toy.env0; user := Toy.bob_id;
              firstName := "Bob"; lastName := "Builder"; username := "bob";
              date := now Toy.env0 |} in
  post_profile (H := Toy.platform) Toy.env0 Toy.bob_id
    (Toy.body "Bob" "Builder" "bob") Toy.store0 =
  (mkResponse 200 (Json (profile_json p)),
   {| users := users Toy.store0; profiles := profiles Toy.store0 ++ [p] |}).
Proof.
  apply (post_profile_creates (H := Toy.platform) Toy.env0 Toy.bob_id Toy.bob_id
           (Toy.body "Bob" "Builder" "bob") "Bob" "Builder" "bob" Toy.store0
           Toy.bob).
  - by split_and!.
  - reflexivity.
  - right; left.
  - reflexivity.
  - intros p Hp. each_elem Hp. by split_and!.
Defined.

(** Bob creates his profile and reads it back. *)
Lemma upsert_then_fetch_witness :
  exists p : Profile,
    (post_profile (H := Toy.platform) Toy.env0 Toy.bob_id
       (Toy.body "Bob" "Builder" "bob") Toy.store0).1
    = mkResponse 200 (Json (profile_json p))
    /\ firstName p = "Bob" /\ lastName p = "Builder" /\ username p = "bob"
    /\ get_profile_me (H := Toy.platform) Toy.bob_id
         (post_profile (H := Toy.platform) Toy.env0 Toy.bob_id
            (Toy.body "Bob" "Builder" "bob") Toy.store0).2
       = (mkResponse 200
            (Json (populate_user
                     (users (post_profile (H := Toy.platform) Toy.env0
                               Toy.bob_id (Toy.body "Bob" "Builder" "bob")
                               Toy.store0).2) p)),
          (post_profile (H := Toy.platform) Toy.env0 Toy.bob_id
             (Toy.body "Bob" "Builder" "bob") Toy.store0).2)
    /\ get_profile_user (H := Toy.platform) Toy.bob_id
         (post_profile (H := Toy.platform) Toy.env0 Toy.bob_id
            (Toy.body "Bob" "Builder" "bob") Toy.store0).2
       = (mkResponse 200
            (Json (populate_user
                     (users (post_profile (H := Toy.platform) Toy.env0
                               Toy.bob_id (Toy.body "Bob" "Builder" "bob")
                               Toy.store0).2) p)),
          (post_profile (H := Toy.platform) Toy.env0 Toy.bob_id
             (Toy.body "Bob" "Builder" "bob") Toy.store0).2).
Proof.
  apply (upsert_then_fetch (H := Toy.platform) Toy.env0 Toy.bob_id
           (Toy.body "Bob" "Builder" "bob") "Bob" "Builder" "bob" Toy.store0).
  - by split_and!.
  - reflexivity.
  - reflexivity.
Defined.

(** Alice fetches her identity. *)
Lemma identity_fetch_returns_the_user_witness :
  get_auth (H := Toy.platform) Toy.alice_id Toy.store0 =
  (mkResponse 200
     (Json (JObj [("_id", JStr Toy.alice_id); ("email", JStr "alice@x.com");
                  ("avatar", JStr "//gravatar.com/avatar/a11")])),
   Toy.store0).
Proof.
  apply (identity_fetch_returns_the_user (H := Toy.platform) Toy.alice_id
           Toy.alice Toy.store0).
  - exact (wf_user_ids _ Toy_store0_wf).
  - left.
  - reflexivity.
Defined.

(** Alice's profile, in the list and by her id. *)
Lemma list_agrees_with_fetch_by_user_witness :
  exists (entries : list json) (entry : json),
    get_profiles Toy.store0
    = (mkResponse 200 (Json (JArr entries)), Toy.store0)
    /\ length entries = length (profiles Toy.store0)
    /\ entries !! 0%nat = Some entry
    /\ get_profile_user (H := Toy.platform) Toy.alice_id Toy.store0
       = (mkResponse 200 (Json entry), Toy.store0).
Proof.
  apply (list_agrees_with_fetch_by_user (H := Toy.platform) Toy.alice_id 0
           Toy.alice_profile Toy.store0).
  - exact (wf_one_profile _ Toy_store0_wf).
  - reflexivity.
  - reflexivity.
Defined.
